(** * Baby-monitor cradle controller: the cooperative tick loop of
      [src/backedcode.c], embedded as state-passing functions.

    The sketch keeps all of its state in global variables and advances four
    timed behaviours from [loop()]: the 500 ms sensor sampling, the cradle
    swing, the buzzer pattern and the diaper-alert timeout.  Here the globals
    become the fields of one record, every sketch function becomes a function
    [State -> State], and everything the sketch sends to the outside world
    (pins, servo, LCD, serial, GSM modem) is appended to a time-stamped trace.

    Conventions.
    - [unsigned long] is 32 bits wide: a value is a [Z] in [0, 2^32) and
      subtraction wraps ([elapsed]).
    - [int] is the 16-bit [int] of the AVR boards the sketch targets
      ([wrap_int]); no claim below depends on the width beyond N <= 32767.
    - [float] is modelled by the primitive binary64 floats, which contain every
      binary32 value; the sketch only tests [isnan] and compares with 30.0.
    - The wall clock is the field [clock] (true milliseconds since power-up,
      unbounded); [millis()] reads it modulo 2^32 and [delay(ms)] advances it.
      Time that passes outside a [delay] (between two passes of [loop()], and
      while the three sensors are read) is supplied by the environment in the
      [TickInput] of the pass; the time [setup()] took is the clock value of
      the state it returns ([after_setup]).
    - [Servo::read()] returns the angle last given to [Servo::write()]. *)

From Stdlib Require Import ZArith List String Bool Lia.
From Stdlib Require Import Floats.PrimFloat.
Import ListNotations.
Open Scope Z_scope.

(** ** Machine arithmetic *)

Definition ULONG_MOD : Z := 2 ^ 32.

(** [unsigned long] subtraction, as in [currentTime - lastSensorReadTime]. *)
Definition elapsed (current last : Z) : Z := (current - last) mod ULONG_MOD.

(** Two's complement wrap-around of a 16-bit [int]. *)
Definition wrap_int (z : Z) : Z := (z + 32768) mod 65536 - 32768.

Definition INT_MAX : Z := 32767.

(** ** Constants of the sketch *)

Definition WETNESS_THRESHOLD : Z := 500.
Definition CRADLE_SWING_SPEED : Z := 30.
Definition CRADLE_POS_REST : Z := 60.
Definition CRADLE_POS_MIN : Z := 30.
Definition CRADLE_POS_MAX : Z := 90.
Definition TEMPERATURE_THRESHOLD : float := 30%float.
Definition PARENT_PHONE_NUMBER : string := "+917416640739".

Definition MSG_CRY : string := "Alert: Baby is Crying!".
Definition MSG_WET : string := "Alert: Diaper is wet. Please check.".
Definition BLANK_LINE : string := "                ".

(** The one-character string holding a double quote (ASCII 34). *)
Definition DQUOTE : string := String (Ascii.ascii_of_nat 34) EmptyString.

(** ** Data model *)

Inductive Level := LOW | HIGH.

Inductive CradleState := IDLE | SWINGING_FORWARD | SWINGING_BACK | RETURNING.

Inductive BuzzerMode := OFF | CRY_ALERT | WET_ALERT.

Inductive OutPin := FAN_RELAY_PIN | BUZZER_PIN.

Definition Level_eqb (a b : Level) : bool :=
  match a, b with LOW, LOW | HIGH, HIGH => true | _, _ => false end.

Definition CradleState_eqb (a b : CradleState) : bool :=
  match a, b with
  | IDLE, IDLE | SWINGING_FORWARD, SWINGING_FORWARD
  | SWINGING_BACK, SWINGING_BACK | RETURNING, RETURNING => true
  | _, _ => false
  end.

Definition BuzzerMode_eqb (a b : BuzzerMode) : bool :=
  match a, b with
  | OFF, OFF | CRY_ALERT, CRY_ALERT | WET_ALERT, WET_ALERT => true
  | _, _ => false
  end.

(** What the sketch does to its peripherals. *)
Inductive Event :=
| PinWrite (p : OutPin) (l : Level)        (* digitalWrite *)
| ServoWrite (angle : Z)                   (* cradleServo.write *)
| SerialPrint (s : string)                 (* Serial.print *)
| SerialPrintln (s : string)               (* Serial.println *)
| LcdSetCursor (col row : Z)
| LcdPrint (s : string)
| LcdPrintFloat (x : float) (digits : Z)
| GsmPrint (s : string)                    (* gsm.print *)
| GsmPrintln (s : string)                  (* gsm.println *)
| GsmWrite (byte : Z).                     (* gsm.write *)

(** The globals of the sketch, the peripheral registers it reads back, the
    wall clock and the output trace (newest event first, each with the clock
    value at which it was issued).  [lastLcdUpdateTime] is declared by the
    sketch but never read or written, and is left out. *)
Record State := mkState {
  clock : Z;
  lastSensorReadTime : Z;
  isDiaperAlertActive : bool;
  diaperAlertStartTime : Z;
  cradleState : CradleState;
  lastSwingTime : Z;
  swingCycles : Z;
  isBuzzerActive : bool;
  buzzerPatternStartTime : Z;
  beepCount : Z;
  buzzerMode : BuzzerMode;
  servoPos : Z;
  fanRelayPin : Level;
  buzzerPin : Level;
  trace : list (Z * Event)
}.

(** What one pass of [loop()] receives from the environment. *)
Record TickInput := mkInput {
  in_idle : Z;             (* ms that passed since the previous pass ended *)
  in_read : Z;             (* ms the three sensor reads take *)
  in_temperature : float;  (* dht.readTemperature() *)
  in_soil : Z;             (* analogRead(SOIL_SENSOR_PIN) *)
  in_sound : Level         (* digitalRead(SOUND_SENSOR_PIN) *)
}.

(** *** Field updates *)

Definition set_clock (v : Z) (s : State) : State :=
  mkState v (lastSensorReadTime s) (isDiaperAlertActive s)
    (diaperAlertStartTime s) (cradleState s) (lastSwingTime s) (swingCycles s)
    (isBuzzerActive s) (buzzerPatternStartTime s) (beepCount s) (buzzerMode s)
    (servoPos s) (fanRelayPin s) (buzzerPin s) (trace s).

Definition set_lastSensorReadTime (v : Z) (s : State) : State :=
  mkState (clock s) v (isDiaperAlertActive s)
    (diaperAlertStartTime s) (cradleState s) (lastSwingTime s) (swingCycles s)
    (isBuzzerActive s) (buzzerPatternStartTime s) (beepCount s) (buzzerMode s)
    (servoPos s) (fanRelayPin s) (buzzerPin s) (trace s).

Definition set_isDiaperAlertActive (v : bool) (s : State) : State :=
  mkState (clock s) (lastSensorReadTime s) v
    (diaperAlertStartTime s) (cradleState s) (lastSwingTime s) (swingCycles s)
    (isBuzzerActive s) (buzzerPatternStartTime s) (beepCount s) (buzzerMode s)
    (servoPos s) (fanRelayPin s) (buzzerPin s) (trace s).

Definition set_diaperAlertStartTime (v : Z) (s : State) : State :=
  mkState (clock s) (lastSensorReadTime s) (isDiaperAlertActive s)
    v (cradleState s) (lastSwingTime s) (swingCycles s)
    (isBuzzerActive s) (buzzerPatternStartTime s) (beepCount s) (buzzerMode s)
    (servoPos s) (fanRelayPin s) (buzzerPin s) (trace s).

Definition set_cradleState (v : CradleState) (s : State) : State :=
  mkState (clock s) (lastSensorReadTime s) (isDiaperAlertActive s)
    (diaperAlertStartTime s) v (lastSwingTime s) (swingCycles s)
    (isBuzzerActive s) (buzzerPatternStartTime s) (beepCount s) (buzzerMode s)
    (servoPos s) (fanRelayPin s) (buzzerPin s) (trace s).

Definition set_lastSwingTime (v : Z) (s : State) : State :=
  mkState (clock s) (lastSensorReadTime s) (isDiaperAlertActive s)
    (diaperAlertStartTime s) (cradleState s) v (swingCycles s)
    (isBuzzerActive s) (buzzerPatternStartTime s) (beepCount s) (buzzerMode s)
    (servoPos s) (fanRelayPin s) (buzzerPin s) (trace s).

Definition set_swingCycles (v : Z) (s : State) : State :=
  mkState (clock s) (lastSensorReadTime s) (isDiaperAlertActive s)
    (diaperAlertStartTime s) (cradleState s) (lastSwingTime s) v
    (isBuzzerActive s) (buzzerPatternStartTime s) (beepCount s) (buzzerMode s)
    (servoPos s) (fanRelayPin s) (buzzerPin s) (trace s).

Definition set_isBuzzerActive (v : bool) (s : State) : State :=
  mkState (clock s) (lastSensorReadTime s) (isDiaperAlertActive s)
    (diaperAlertStartTime s) (cradleState s) (lastSwingTime s) (swingCycles s)
    v (buzzerPatternStartTime s) (beepCount s) (buzzerMode s)
    (servoPos s) (fanRelayPin s) (buzzerPin s) (trace s).

Definition set_buzzerPatternStartTime (v : Z) (s : State) : State :=
  mkState (clock s) (lastSensorReadTime s) (isDiaperAlertActive s)
    (diaperAlertStartTime s) (cradleState s) (lastSwingTime s) (swingCycles s)
    (isBuzzerActive s) v (beepCount s) (buzzerMode s)
    (servoPos s) (fanRelayPin s) (buzzerPin s) (trace s).

Definition set_beepCount (v : Z) (s : State) : State :=
  mkState (clock s) (lastSensorReadTime s) (isDiaperAlertActive s)
    (diaperAlertStartTime s) (cradleState s) (lastSwingTime s) (swingCycles s)
    (isBuzzerActive s) (buzzerPatternStartTime s) v (buzzerMode s)
    (servoPos s) (fanRelayPin s) (buzzerPin s) (trace s).

Definition set_buzzerMode (v : BuzzerMode) (s : State) : State :=
  mkState (clock s) (lastSensorReadTime s) (isDiaperAlertActive s)
    (diaperAlertStartTime s) (cradleState s) (lastSwingTime s) (swingCycles s)
    (isBuzzerActive s) (buzzerPatternStartTime s) (beepCount s) v
    (servoPos s) (fanRelayPin s) (buzzerPin s) (trace s).

Definition set_servoPos (v : Z) (s : State) : State :=
  mkState (clock s) (lastSensorReadTime s) (isDiaperAlertActive s)
    (diaperAlertStartTime s) (cradleState s) (lastSwingTime s) (swingCycles s)
    (isBuzzerActive s) (buzzerPatternStartTime s) (beepCount s) (buzzerMode s)
    v (fanRelayPin s) (buzzerPin s) (trace s).

Definition set_fanRelayPin (v : Level) (s : State) : State :=
  mkState (clock s) (lastSensorReadTime s) (isDiaperAlertActive s)
    (diaperAlertStartTime s) (cradleState s) (lastSwingTime s) (swingCycles s)
    (isBuzzerActive s) (buzzerPatternStartTime s) (beepCount s) (buzzerMode s)
    (servoPos s) v (buzzerPin s) (trace s).

Definition set_buzzerPin (v : Level) (s : State) : State :=
  mkState (clock s) (lastSensorReadTime s) (isDiaperAlertActive s)
    (diaperAlertStartTime s) (cradleState s) (lastSwingTime s) (swingCycles s)
    (isBuzzerActive s) (buzzerPatternStartTime s) (beepCount s) (buzzerMode s)
    (servoPos s) (fanRelayPin s) v (trace s).

Definition set_trace (v : list (Z * Event)) (s : State) : State :=
  mkState (clock s) (lastSensorReadTime s) (isDiaperAlertActive s)
    (diaperAlertStartTime s) (cradleState s) (lastSwingTime s) (swingCycles s)
    (isBuzzerActive s) (buzzerPatternStartTime s) (beepCount s) (buzzerMode s)
    (servoPos s) (fanRelayPin s) (buzzerPin s) v.

(** ** The Arduino primitives the sketch calls *)

Definition emit (e : Event) (s : State) : State :=
  set_trace ((clock s, e) :: trace s) s.

Definition millis (s : State) : Z := clock s mod ULONG_MOD.

Definition delay (ms : Z) (s : State) : State := set_clock (clock s + ms) s.

Definition digitalWrite (p : OutPin) (l : Level) (s : State) : State :=
  match p with
  | FAN_RELAY_PIN => emit (PinWrite p l) (set_fanRelayPin l s)
  | BUZZER_PIN => emit (PinWrite p l) (set_buzzerPin l s)
  end.

Definition servo_read (s : State) : Z := servoPos s.

Definition servo_write (angle : Z) (s : State) : State :=
  emit (ServoWrite angle) (set_servoPos angle s).

(** ** The sketch *)

(** State when [setup()] returns at clock value [t]: the initialisers of the
    globals, fan relay HIGH (fan off), buzzer LOW, servo at the rest
    position.  The trace starts empty: it holds what the sketch does from
    the first pass of [loop()] on. *)
Definition after_setup (t : Z) : State :=
  mkState t 0 false 0 IDLE 0 0 false 0 0 OFF
          CRADLE_POS_REST HIGH LOW [].

(** [setup()] with the modem answering the first probe: the delays of 2000,
    3000, 1000 and 500 ms add up to 6500 ms. *)
Definition boot : State := after_setup 6500.

Definition sendSMS (number message : string) (s : State) : State :=
  let s := emit (SerialPrint "Sending SMS to ") s in
  let s := emit (SerialPrintln number) s in
  let s := emit (GsmPrint (String.append "AT+CMGS=" DQUOTE)) s in
  let s := emit (GsmPrint number) s in
  let s := emit (GsmPrintln DQUOTE) s in
  let s := delay 1000 s in
  let s := emit (GsmPrint message) s in
  let s := delay 100 s in
  let s := emit (GsmWrite 26) s in
  let s := delay 1000 s in
  emit (SerialPrintln "SMS Sent Command Issued!") s.

Definition startBuzzer (mode : BuzzerMode) (count : Z) (s : State) : State :=
  if isBuzzerActive s then s
  else
    let s := set_buzzerMode mode s in
    let s := set_beepCount (wrap_int (count * 2)) s in
    let s := set_buzzerPatternStartTime (millis s) s in
    set_isBuzzerActive true s.

Definition handleTemperature (temperature : float) (s : State) : State :=
  if (TEMPERATURE_THRESHOLD <? temperature)%float
  then digitalWrite FAN_RELAY_PIN LOW s
  else digitalWrite FAN_RELAY_PIN HIGH s.

Definition handleCry (soundValue : Level) (s : State) : State :=
  if Level_eqb soundValue LOW && CradleState_eqb (cradleState s) IDLE then
    let s := emit (SerialPrintln "Baby Crying! Starting cradle and alert.") s in
    let s := set_cradleState SWINGING_FORWARD s in
    let s := set_swingCycles 3 s in
    let s := startBuzzer CRY_ALERT 3 s in
    sendSMS PARENT_PHONE_NUMBER MSG_CRY s
  else s.

Definition handleUrine (soilValue : Z) (s : State) : State :=
  if (soilValue <? WETNESS_THRESHOLD) && negb (isDiaperAlertActive s) then
    let s := emit (SerialPrintln "Baby Urinated! Starting alert.") s in
    let s := set_isDiaperAlertActive true s in
    let s := set_diaperAlertStartTime (millis s) s in
    let s := startBuzzer WET_ALERT 3 s in
    sendSMS PARENT_PHONE_NUMBER MSG_WET s
  else s.

(** The guard of [manageCradleSwing]: a step is due. *)
Definition swing_due (currentTime : Z) (s : State) : bool :=
  negb (CradleState_eqb (cradleState s) IDLE)
  && (CRADLE_SWING_SPEED <=? elapsed currentTime (lastSwingTime s)).

Definition manageCradleSwing (currentTime : Z) (s : State) : State :=
  if CradleState_eqb (cradleState s) IDLE
     || (elapsed currentTime (lastSwingTime s) <? CRADLE_SWING_SPEED)
  then s
  else
    let s := set_lastSwingTime currentTime s in
    let currentPos := servo_read s in
    match cradleState s with
    | SWINGING_FORWARD =>
        if currentPos <? CRADLE_POS_MAX
        then servo_write (currentPos + 1) s
        else set_cradleState SWINGING_BACK s
    | SWINGING_BACK =>
        if CRADLE_POS_MIN <? currentPos
        then servo_write (currentPos - 1) s
        else
          let s := set_swingCycles (wrap_int (swingCycles s - 1)) s in
          if 0 <? swingCycles s
          then set_cradleState SWINGING_FORWARD s
          else set_cradleState RETURNING s
    | RETURNING =>
        if currentPos <? CRADLE_POS_REST
        then servo_write (currentPos + 1) s
        else if CRADLE_POS_REST <? currentPos
        then servo_write (currentPos - 1) s
        else
          let s := set_cradleState IDLE s in
          let s := emit (SerialPrintln "Cradle stopped.") s in
          let s := emit (LcdSetCursor 0 1) s in
          emit (LcdPrint BLANK_LINE) s
    | IDLE => s
    end.

Definition manageBuzzer (currentTime : Z) (s : State) : State :=
  if negb (isBuzzerActive s) then s
  else
    let onDuration :=
      if BuzzerMode_eqb (buzzerMode s) CRY_ALERT then 200 else 500 in
    let offDuration :=
      if BuzzerMode_eqb (buzzerMode s) CRY_ALERT then 200 else 500 in
    let elapsedTime := elapsed currentTime (buzzerPatternStartTime s) in
    if 0 <? beepCount s then
      let s :=
        if elapsedTime mod (onDuration + offDuration) <? onDuration
        then digitalWrite BUZZER_PIN HIGH s
        else digitalWrite BUZZER_PIN LOW s in
      if onDuration + offDuration <=? elapsedTime then
        let s := set_beepCount (wrap_int (beepCount s - 2)) s in
        set_buzzerPatternStartTime currentTime s
      else s
    else
      let s := digitalWrite BUZZER_PIN LOW s in
      let s := set_isBuzzerActive false s in
      set_buzzerMode OFF s.

Definition manageDiaperAlertMessage (currentTime : Z) (s : State) : State :=
  if isDiaperAlertActive s
     && (5000 <? elapsed currentTime (diaperAlertStartTime s))
  then set_isDiaperAlertActive false s
  else s.

Definition updateLCD (temperature : float) (s : State) : State :=
  let s := emit (LcdSetCursor 0 0) s in
  let s := emit (LcdPrint "Temp: ") s in
  let s := emit (LcdPrintFloat temperature 1) s in
  let s := emit (LcdPrint "C  ") s in
  let s := emit (LcdSetCursor 11 0) s in
  let s := emit (LcdPrint (if Level_eqb (fanRelayPin s) LOW
                           then "F:ON " else "F:OFF")) s in
  let s := emit (LcdSetCursor 0 1) s in
  if negb (CradleState_eqb (cradleState s) IDLE)
  then emit (LcdPrint "Cradle Swinging ") s
  else if isDiaperAlertActive s
  then emit (LcdPrint "Diaper is Wet!  ") s
  else emit (LcdPrint "System OK       ") s.

(** The guard of the sampling block of [loop()]. *)
Definition sample_due (currentTime : Z) (s : State) : bool :=
  500 <=? elapsed currentTime (lastSensorReadTime s).

(** The four rules run on a valid reading, in the order of the sketch. *)
Definition rules (inp : TickInput) (s : State) : State :=
  let s := handleTemperature (in_temperature inp) s in
  let s := handleCry (in_sound inp) s in
  let s := handleUrine (in_soil inp) s in
  updateLCD (in_temperature inp) s.

(** The sampling block of [loop()] ("Read sensors periodically"). *)
Definition sample (inp : TickInput) (currentTime : Z) (s : State) : State :=
  if sample_due currentTime s then
    let s := set_lastSensorReadTime currentTime s in
    let s := delay (in_read inp) s in
    if negb (is_nan (in_temperature inp)) then rules inp s else s
  else s.

(** The tail of [loop()] ("Update ongoing actions"). *)
Definition advance (currentTime : Z) (s : State) : State :=
  let s := manageCradleSwing currentTime s in
  let s := manageBuzzer currentTime s in
  manageDiaperAlertMessage currentTime s.

(** One pass of [loop()]. *)
Definition loop (inp : TickInput) (s : State) : State :=
  let s := delay (in_idle inp) s in
  let currentTime := millis s in
  let s := sample inp currentTime s in
  advance currentTime s.

(** The sketch run on a sequence of passes. *)
Fixpoint run (inps : list TickInput) (s : State) : State :=
  match inps with
  | [] => s
  | inp :: rest => run rest (loop inp s)
  end.


(** ** Observations *)

(** The instant a pass of [loop()] reads into [currentTime]. *)
Definition loop_time (inp : TickInput) (s : State) : Z :=
  millis (delay (in_idle inp) s).

(** A pass samples the sensors and gets a valid temperature. *)
Definition samples_ok (inp : TickInput) (s : State) : bool :=
  sample_due (loop_time inp s) s && negb (is_nan (in_temperature inp)).

(** The relay is active-low: the fan runs while the pin is LOW. *)
Definition fan_on (s : State) : bool := Level_eqb (fanRelayPin s) LOW.

(** Levels written to the fan relay, newest first. *)
Fixpoint fan_commands (tr : list (Z * Event)) : list Level :=
  match tr with
  | [] => []
  | (_, PinWrite FAN_RELAY_PIN l) :: tr' => l :: fan_commands tr'
  | _ :: tr' => fan_commands tr'
  end.

(** Levels written to the buzzer pin with their instants, oldest first. *)
Fixpoint buzzer_writes (tr : list (Z * Event)) : list (Z * Level) :=
  match tr with
  | [] => []
  | (t, PinWrite BUZZER_PIN l) :: tr' => buzzer_writes tr' ++ [(t, l)]
  | _ :: tr' => buzzer_writes tr'
  end.

(** Number of times the body [msg] was handed to the modem. *)
Fixpoint sends (msg : string) (tr : list (Z * Event)) : nat :=
  match tr with
  | [] => O
  | (_, GsmPrint m) :: tr' =>
      if String.eqb m msg then S (sends msg tr') else sends msg tr'
  | _ :: tr' => sends msg tr'
  end.

Definition cry_sends (s : State) : nat := sends MSG_CRY (trace s).
Definition wet_sends (s : State) : nat := sends MSG_WET (trace s).

(** Fan state after each pass of a run. *)
Fixpoint fan_history (inps : list TickInput) (s : State) : list bool :=
  match inps with
  | [] => []
  | inp :: rest => fan_on (loop inp s) :: fan_history rest (loop inp s)
  end.

(** Instants at which the wetness rule fired, oldest first: the rule logs its
    diagnostic line at the instant it records in [diaperAlertStartTime]. *)
Fixpoint wet_firings (tr : list (Z * Event)) : list Z :=
  match tr with
  | [] => []
  | (t, SerialPrintln m) :: tr' =>
      if String.eqb m "Baby Urinated! Starting alert."
      then wet_firings tr' ++ [t] else wet_firings tr'
  | _ :: tr' => wet_firings tr'
  end.

(** *** Views of the state *)

(** The part of the state the cradle state machine owns. *)
Definition cradle_fields (s : State) : CradleState * Z * Z * Z :=
  (cradleState s, swingCycles s, servoPos s, lastSwingTime s).

(** The part of the state the buzzer pattern owns. *)
Definition buzzer_fields (s : State) : bool * BuzzerMode * Z * Z :=
  (isBuzzerActive s, buzzerMode s, beepCount s, buzzerPatternStartTime s).

(** The part of the state the diaper alert owns. *)
Definition diaper_fields (s : State) : bool * Z :=
  (isDiaperAlertActive s, diaperAlertStartTime s).

(** *** Invariants *)

Definition angle_in_range (s : State) : Prop :=
  CRADLE_POS_MIN <= servoPos s <= CRADLE_POS_MAX.

(** The buzzer counter only takes the values the rules and the countdown give
    it, and an inactive buzzer is fully reset. *)
Definition buzzer_inv (s : State) : Prop :=
  (beepCount s = 0 \/ beepCount s = 2 \/ beepCount s = 4 \/ beepCount s = 6)
  /\ (isBuzzerActive s = false -> buzzerMode s = OFF /\ beepCount s = 0).

(** *** The swing, step by step *)

(** Turning points of the swing, with the servo angle at which the state
    machine turned: the end of a forward sweep and the end of a backward
    sweep. *)
Inductive Turn := Peak (angle : Z) | Trough (angle : Z).

(** What one step of the cradle shows: a turning point, if the state machine
    left a sweep. *)
Definition turn (before after : State) : list Turn :=
  match cradleState before, cradleState after with
  | SWINGING_FORWARD, SWINGING_BACK => [Peak (servoPos after)]
  | SWINGING_BACK, SWINGING_FORWARD
  | SWINGING_BACK, RETURNING => [Trough (servoPos after)]
  | _, _ => []
  end.

(** Every instant of [ts] is at least 30 ms (in 32-bit arithmetic) after the
    one before it, the first one after [last]. *)
Fixpoint due_chain (last : Z) (ts : list Z) : bool :=
  match ts with
  | [] => true
  | t :: ts' => (CRADLE_SWING_SPEED <=? elapsed t last) && due_chain t ts'
  end.

(** Advance the cradle at the instants [ts] until it enters RETURNING;
    gives the state on entry and the turning points seen so far, or [None]
    when the instants run out first. *)
Fixpoint swing_until_returning (ts : list Z) (s : State) (lg : list Turn)
  : option (State * list Turn) :=
  match cradleState s with
  | RETURNING => Some (s, lg)
  | _ =>
      match ts with
      | [] => None
      | t :: ts' =>
          swing_until_returning ts' (manageCradleSwing t s)
            (lg ++ turn s (manageCradleSwing t s))
      end
  end.

(** [n] full sweeps: forward up to 90 degrees, back down to 30 degrees,
    [n] times. *)
Fixpoint sweeps (n : nat) : list Turn :=
  match n with
  | O => []
  | S n' => Peak CRADLE_POS_MAX :: Trough CRADLE_POS_MIN :: sweeps n'
  end.

(** Number of steps from SWINGING_FORWARD at angle [a] with [n] cycles left
    to the entry into RETURNING. *)
Definition swing_steps (n a : Z) : Z := 122 * n + 30 - a.

(** *** Runs *)

(** The cradle is away from IDLE at the start of every pass of the run. *)
Fixpoint busy_throughout (inps : list TickInput) (s : State) : bool :=
  match inps with
  | [] => true
  | inp :: rest =>
      negb (CradleState_eqb (cradleState s) IDLE)
      && busy_throughout rest (loop inp s)
  end.

(** The state on which the cry rule runs in a pass that samples a valid
    temperature: timer set, sensors read, fan rule applied. *)
Definition before_cry (inp : TickInput) (s : State) : State :=
  handleTemperature (in_temperature inp)
    (delay (in_read inp)
       (set_lastSensorReadTime (loop_time inp s) (delay (in_idle inp) s))).

(** The buzzer advanced at the true instants [ts]. *)
Fixpoint buzz (ts : list Z) (s : State) : State :=
  match ts with
  | [] => s
  | t :: ts' => buzz ts' (manageBuzzer (t mod ULONG_MOD) (set_clock t s))
  end.

(** ON-pulses of a pin that starts LOW, as (rise, fall) instants, from the
    writes to the pin in the order they were made. *)
Fixpoint pulses_from (rise : option Z) (ws : list (Z * Level))
  : list (Z * Z) :=
  match ws with
  | [] => []
  | (t, HIGH) :: ws' =>
      match rise with
      | None => pulses_from (Some t) ws'
      | Some _ => pulses_from rise ws'
      end
  | (t, LOW) :: ws' =>
      match rise with
      | Some r => (r, t) :: pulses_from None ws'
      | None => pulses_from None ws'
      end
  end.

Definition buzzer_pulses (s : State) : list (Z * Z) :=
  pulses_from None (buzzer_writes (trace s)).

(** The instants t0, t0 + 1, ..., t0 + n - 1: one tick per millisecond. *)
Definition every_ms (t0 : Z) (n : nat) : list Z :=
  map (fun k => t0 + Z.of_nat k) (seq 0 n).

(** *** Sample inputs *)

(** A pass 500 ms after the previous one, with instantaneous sensor reads. *)
Definition pass (t : float) (soil : Z) (snd : Level) : TickInput :=
  mkInput 500 0 t soil snd.

(** Quiet baby, dry diaper. *)
Definition calm (t : float) : TickInput := pass t 600 HIGH.

(** Crying baby, dry diaper, 25 degrees. *)
Definition crying : TickInput := pass 25 600 LOW.

(** Crying baby and wet diaper in the same pass. *)
Definition crying_and_wet : TickInput := pass 25 400 LOW.

(** Wet diaper, quiet baby, no pause since the previous pass. *)
Definition wet_at_once : TickInput := mkInput 0 0 25 400 HIGH.

(** Wet diaper, quiet baby; the sensor reads take one millisecond. *)
Definition wet_slow_read : TickInput := mkInput 500 1 25 400 HIGH.

(** The invalid reading of the temperature sensor. *)
Definition NAN : float := (0 / 0)%float.

(** A pattern is running. *)
Definition beeping : State := startBuzzer WET_ALERT 3 boot.

(** The cradle just triggered by the cry rule, at rest position. *)
Definition triggered (n : Z) : State :=
  set_swingCycles n (set_cradleState SWINGING_FORWARD boot).

(** A cradle step every 30 ms after [t0], [n] of them. *)
Definition every_30ms (t0 : Z) (n : nat) : list Z :=
  map (fun k => t0 + CRADLE_SWING_SPEED * Z.of_nat k) (seq 1 n).

(** ** Start-up: [initializeGSM()] and [setup()] *)

(** What the modem sends back after one probe: the strings that successive
    calls of [gsm.readString()] return while [gsm.available()] is non-zero,
    each with the time the call took. *)
Definition ModemReply : Type := list (string * Z).

(** [str.indexOf("OK") != -1]. *)
Definition contains_OK (str : string) : bool :=
  match String.index 0 "OK" str with
  | Some _ => true
  | None => false
  end.

(** The [while (gsm.available())] loop after a probe: strings are read until
    one holds OK ([true]) or nothing is left to read ([false]). *)
Fixpoint gsm_await_ok (reply : ModemReply) (s : State) : bool * State :=
  match reply with
  | [] => (false, s)
  | (str, d) :: rest =>
      let s := delay d s in
      if contains_OK str then (true, s) else gsm_await_ok rest s
  end.

(** The [for] loop of [initializeGSM()] with [n] probes left; [replies] holds
    the modem's reply to each coming probe (none when the list runs out). *)
Fixpoint gsm_probes (n : nat) (replies : list ModemReply) (s : State)
  : State :=
  match n with
  | O => emit (SerialPrintln "GSM Module Initialization Failed!") s
  | S n' =>
      let s := emit (GsmPrintln "AT") s in
      let s := delay 1000 s in
      let (ok, s) := gsm_await_ok (hd [] replies) s in
      if ok then
        let s :=
          emit (SerialPrintln "GSM Module Initialized Successfully!") s in
        let s := emit (GsmPrintln "AT+CMGF=1") s in
        delay 500 s
      else
        let s := emit (SerialPrintln "Retrying GSM Connection...") s in
        gsm_probes n' (tl replies) s
  end.

Definition initializeGSM (replies : list ModemReply) (s : State) : State :=
  let s := emit (SerialPrintln "Initializing GSM Module...") s in
  let s := delay 3000 s in
  gsm_probes 5 replies s.

(** The board at power-up: the initialisers of the globals, the clock at
    zero, and the servo and the two output pins in whatever state the
    hardware gives them. *)
Definition power_on (pos : Z) (fan bz : Level) : State :=
  mkState 0 0 false 0 IDLE 0 0 false 0 0 OFF pos fan bz [].

(** [setup()].  The calls that only configure a peripheral ([begin],
    [backlight], [pinMode], [attach]) and [lcd.clear()] touch nothing that
    [State] or [Event] describe; they are named where they occur. *)
Definition setup (replies : list ModemReply) (s : State) : State :=
  (* Serial.begin, gsm.begin, dht.begin, lcd.begin, lcd.backlight *)
  let s := emit (LcdSetCursor 0 0) s in
  let s := emit (LcdPrint " Baby Monitor ") s in
  (* pinMode FAN_RELAY_PIN *)
  let s := digitalWrite FAN_RELAY_PIN HIGH s in
  (* pinMode BUZZER_PIN *)
  let s := digitalWrite BUZZER_PIN LOW s in
  (* cradleServo.attach *)
  let s := servo_write CRADLE_POS_REST s in
  (* pinMode of the two sensor pins *)
  let s := delay 2000 s in
  (* lcd.clear *)
  let s := initializeGSM replies s in
  emit (SerialPrintln "System Ready.") s.

(** ** More observations *)

(** Number of lines [msg] sent to the modem with [gsm.println]. *)
Fixpoint gsm_lines (msg : string) (tr : list (Z * Event)) : nat :=
  match tr with
  | [] => O
  | (_, GsmPrintln m) :: tr' =>
      if String.eqb m msg then S (gsm_lines msg tr') else gsm_lines msg tr'
  | _ :: tr' => gsm_lines msg tr'
  end.

(** Number of messages submitted: each ends with the byte 26 (Ctrl+Z). *)
Fixpoint submitted (tr : list (Z * Event)) : nat :=
  match tr with
  | [] => O
  | (_, GsmWrite b) :: tr' =>
      if b =? 26 then S (submitted tr') else submitted tr'
  | _ :: tr' => submitted tr'
  end.

Definition alert_sends (s : State) : nat := submitted (trace s).

(** Angles written to the servo, newest first. *)
Fixpoint servo_writes (tr : list (Z * Event)) : list Z :=
  match tr with
  | [] => []
  | (_, ServoWrite a) :: tr' => a :: servo_writes tr'
  | _ :: tr' => servo_writes tr'
  end.

(** Texts printed on the display, newest first. *)
Fixpoint lcd_prints (tr : list (Z * Event)) : list string :=
  match tr with
  | [] => []
  | (_, LcdPrint m) :: tr' => m :: lcd_prints tr'
  | _ :: tr' => lcd_prints tr'
  end.

(** What reaches the modem, oldest first, without the instants. *)
Fixpoint modem_stream (tr : list (Z * Event)) : list Event :=
  match tr with
  | [] => []
  | (_, GsmPrint m) :: tr' => modem_stream tr' ++ [GsmPrint m]
  | (_, GsmPrintln m) :: tr' => modem_stream tr' ++ [GsmPrintln m]
  | (_, GsmWrite b) :: tr' => modem_stream tr' ++ [GsmWrite b]
  | _ :: tr' => modem_stream tr'
  end.

(** The cradle advanced at the instants [ts]. *)
Fixpoint swing (ts : list Z) (s : State) : State :=
  match ts with
  | [] => s
  | t :: ts' => swing ts' (manageCradleSwing t s)
  end.

(** What the cycle counter and the servo can be in each cradle state. *)
Definition cradle_inv (s : State) : Prop :=
  match cradleState s with
  | IDLE => servoPos s = CRADLE_POS_REST /\ swingCycles s = 0
  | SWINGING_FORWARD | SWINGING_BACK => 1 <= swingCycles s <= 3
  | RETURNING => swingCycles s = 0
  end.

(** A buzzer that is not running a pattern is not sounding. *)
Definition silent_inv (s : State) : Prop :=
  isBuzzerActive s = false -> buzzerPin s = LOW.

(** Whether a pattern runs, and the level of the buzzer pin. *)
Definition sound_fields (s : State) : bool * Level :=
  (isBuzzerActive s, buzzerPin s).

(** Every message submitted so far carried one of the two alert bodies, and
    every alert body handed to the modem was submitted. *)
Definition accounted (s : State) : Prop :=
  alert_sends s = (cry_sends s + wet_sends s)%nat.

(** The cry rule fires on this state. *)
Definition cry_fires (inp : TickInput) (s : State) : bool :=
  Level_eqb (in_sound inp) LOW && CradleState_eqb (cradleState s) IDLE.

(** The wetness rule fires on this state. *)
Definition wet_fires (inp : TickInput) (s : State) : bool :=
  (in_soil inp <? WETNESS_THRESHOLD) && negb (isDiaperAlertActive s).

(** A reply holds OK in one of its strings. *)
Definition reply_has_ok (r : ModemReply) : bool :=
  existsb (fun c => contains_OK (fst c)) r.

(** One of the replies to the first [n] probes holds OK. *)
Fixpoint modem_answers (n : nat) (replies : list ModemReply) : bool :=
  match n with
  | O => false
  | S n' => reply_has_ok (hd [] replies) || modem_answers n' (tl replies)
  end.

(** Probes sent when at most [n] are allowed: up to the first reply that
    holds OK. *)
Fixpoint probes_sent (n : nat) (replies : list ModemReply) : nat :=
  match n with
  | O => O
  | S n' =>
      if reply_has_ok (hd [] replies) then 1%nat
      else S (probes_sent n' (tl replies))
  end.

(** No read of the modem takes a negative time. *)
Definition reads_take_time (replies : list ModemReply) : Prop :=
  Forall (Forall (fun c : string * Z => 0 <= snd c)) replies.

(** Everything in the state but the clock and the trace. *)
Definition globals (s : State) : State := set_trace [] (set_clock 0 s).

(** *** More sample inputs *)

(** The modem answers the second probe, after an echo without OK. *)
Definition answers_second : list ModemReply :=
  [ [("AT"%string, 1000)] ; [("AT  OK"%string, 1000)] ].

(** A cradle on its way back from the far end of the sweep. *)
Definition returning_from (a : Z) : State :=
  set_servoPos a (set_cradleState RETURNING boot).

(** ** Proof support *)

(** Unfolds the sketch functions, leaving the field updates folded. *)
Ltac enter :=
  cbv beta iota zeta delta
    [rules handleTemperature handleCry handleUrine updateLCD
     manageCradleSwing manageBuzzer manageDiaperAlertMessage startBuzzer].

(** Runs straight-line code on an opened state down to a record. *)
Tactic Notation "sketch" :=
  cbv beta iota zeta delta
    [rules handleTemperature handleCry handleUrine updateLCD
     manageCradleSwing manageBuzzer manageDiaperAlertMessage startBuzzer
     sendSMS digitalWrite servo_write servo_read emit delay millis
     set_clock set_lastSensorReadTime set_isDiaperAlertActive
     set_diaperAlertStartTime set_cradleState set_lastSwingTime
     set_swingCycles set_isBuzzerActive set_buzzerPatternStartTime
     set_beepCount set_buzzerMode set_servoPos set_fanRelayPin set_buzzerPin
     set_trace clock lastSensorReadTime isDiaperAlertActive
     diaperAlertStartTime cradleState lastSwingTime swingCycles
     isBuzzerActive buzzerPatternStartTime beepCount buzzerMode servoPos
     fanRelayPin buzzerPin trace cradle_fields buzzer_fields diaper_fields
     sound_fields].

Tactic Notation "sketch" "in" "*" :=
  cbv beta iota zeta delta
    [rules handleTemperature handleCry handleUrine updateLCD
     manageCradleSwing manageBuzzer manageDiaperAlertMessage startBuzzer
     sendSMS digitalWrite servo_write servo_read emit delay millis
     set_clock set_lastSensorReadTime set_isDiaperAlertActive
     set_diaperAlertStartTime set_cradleState set_lastSwingTime
     set_swingCycles set_isBuzzerActive set_buzzerPatternStartTime
     set_beepCount set_buzzerMode set_servoPos set_fanRelayPin set_buzzerPin
     set_trace clock lastSensorReadTime isDiaperAlertActive
     diaperAlertStartTime cradleState lastSwingTime swingCycles
     isBuzzerActive buzzerPatternStartTime beepCount buzzerMode servoPos
     fanRelayPin buzzerPin trace cradle_fields buzzer_fields diaper_fields
     sound_fields] in *.

Ltac split_if :=
  match goal with
  | |- context [match ?c with IDLE => _ | _ => _ end] => destruct c eqn:?
  | |- context [if ?b then _ else _] => destruct b eqn:?
  end.

(** Turns boolean tests in the hypotheses into propositions. *)
Ltac zbool :=
  repeat match goal with
  | H : (_ <? _) = true |- _ => apply Z.ltb_lt in H
  | H : (_ <? _) = false |- _ => apply Z.ltb_ge in H
  | H : (_ <=? _) = true |- _ => apply Z.leb_le in H
  | H : (_ <=? _) = false |- _ => apply Z.leb_gt in H
  | H : (_ =? _) = true |- _ => apply Z.eqb_eq in H
  | H : (_ =? _) = false |- _ => apply Z.eqb_neq in H
  | H : _ || _ = false |- _ => apply orb_false_iff in H; destruct H
  | H : _ && _ = true |- _ => apply andb_true_iff in H; destruct H
  | H : negb _ = true |- _ => apply negb_true_iff in H
  | H : negb _ = false |- _ => apply negb_false_iff in H
  end.

Ltac constants :=
  unfold CRADLE_POS_MIN, CRADLE_POS_MAX, CRADLE_POS_REST, CRADLE_SWING_SPEED,
    WETNESS_THRESHOLD, INT_MAX in *.

Ltac open_state s :=
  destruct s as [clk lsr dact dst cst lsw cyc bact bst bcnt bmode pos fan
                 bpin tr].

(** Runs one sketch function symbolically: first every branch is chosen,
    then the straight-line code of the branch is evaluated. *)
Ltac branches :=
  intros;
  match goal with s : State |- _ => open_state s end;
  enter; repeat (split_if; cbv beta iota zeta).

Ltac frame := branches; sketch; try reflexivity.

Lemma elapsed_range (a b : Z) : 0 <= elapsed a b < ULONG_MOD.
Proof. unfold elapsed, ULONG_MOD. apply Z.mod_pos_bound. lia. Qed.

Lemma elapsed_true_time (now1 now2 : Z) :
  now1 <= now2 -> now2 - now1 < ULONG_MOD ->
  elapsed (now2 mod ULONG_MOD) (now1 mod ULONG_MOD) = now2 - now1.
Proof.
  intros Hle Hlt. unfold elapsed.
  rewrite <- Zminus_mod. apply Z.mod_small. lia.
Qed.

Lemma wrap_int_small (z : Z) : -32768 <= z <= INT_MAX -> wrap_int z = z.
Proof.
  unfold wrap_int, INT_MAX. intros H.
  rewrite Z.mod_small by lia. lia.
Qed.

Lemma CradleState_eqb_eq (a b : CradleState) :
  CradleState_eqb a b = true <-> a = b.
Proof. destruct a, b; simpl; split; congruence. Qed.

Lemma manageCradleSwing_not_due (t : Z) (s : State) :
  swing_due t s = false -> manageCradleSwing t s = s.
Proof.
  unfold swing_due, manageCradleSwing. intros H.
  destruct (CradleState_eqb (cradleState s) IDLE); simpl in *; auto.
  destruct (Z.leb_spec CRADLE_SWING_SPEED (elapsed t (lastSwingTime s)));
    try discriminate.
  destruct (Z.ltb_spec (elapsed t (lastSwingTime s)) CRADLE_SWING_SPEED);
    auto; lia.
Qed.

Lemma manageCradleSwing_due_time (t : Z) (s : State) :
  swing_due t s = true -> lastSwingTime (manageCradleSwing t s) = t.
Proof.
  unfold swing_due. intros H. apply andb_true_iff in H. destruct H as [Hi Hd].
  apply Z.leb_le in Hd. apply negb_true_iff in Hi.
  unfold manageCradleSwing. rewrite Hi. simpl orb.
  destruct (Z.ltb_spec (elapsed t (lastSwingTime s)) CRADLE_SWING_SPEED);
    [lia|].
  clear - s. frame.
Qed.

(** ** The claims *)

(** What a call of [manageBuzzer] does while a pattern runs with beeps left,
    in terms of the 32-bit difference it computes. *)
Lemma manageBuzzer_by_elapsed t s :
  isBuzzerActive s = true -> 0 < beepCount s ->
  let on := if BuzzerMode_eqb (buzzerMode s) CRY_ALERT then 200 else 500 in
  let e := elapsed t (buzzerPatternStartTime s) in
  buzzerPin (manageBuzzer t s) = (if e mod (on + on) <? on then HIGH else LOW)
  /\ buzzerPatternStartTime (manageBuzzer t s)
     = (if on + on <=? e then t else buzzerPatternStartTime s)
  /\ beepCount (manageBuzzer t s)
     = (if on + on <=? e then wrap_int (beepCount s - 2) else beepCount s).
Proof.
  intros Ha Hc on e. subst on e. open_state s.
  cbn [isBuzzerActive beepCount buzzerMode buzzerPatternStartTime] in *.
  subst bact. apply Z.ltb_lt in Hc.
  enter. cbn [isBuzzerActive beepCount buzzerMode buzzerPatternStartTime negb].
  rewrite Hc. cbv beta iota zeta.
  destruct (elapsed t bst
            mod ((if BuzzerMode_eqb bmode CRY_ALERT then 200 else 500)
                 + (if BuzzerMode_eqb bmode CRY_ALERT then 200 else 500))
            <? (if BuzzerMode_eqb bmode CRY_ALERT then 200 else 500));
    destruct ((if BuzzerMode_eqb bmode CRY_ALERT then 200 else 500)
              + (if BuzzerMode_eqb bmode CRY_ALERT then 200 else 500)
              <=? elapsed t bst);
    sketch; repeat split.
Qed.

Lemma timer_rules inp s :
  lastSensorReadTime (rules inp s) = lastSensorReadTime s.
Proof.
  unfold rules.
  assert (A : forall x u, lastSensorReadTime (updateLCD x u)
                          = lastSensorReadTime u) by (clear; frame).
  assert (B : forall v u, lastSensorReadTime (handleUrine v u)
                          = lastSensorReadTime u) by (clear; frame).
  assert (C : forall v u, lastSensorReadTime (handleCry v u)
                          = lastSensorReadTime u) by (clear; frame).
  assert (D : forall x u, lastSensorReadTime (handleTemperature x u)
                          = lastSensorReadTime u) by (clear; frame).
  rewrite A, B, C, D. reflexivity.
Qed.

(** C10. Wrap-around-safe elapsed time.  For true instants now1 < now2 less
    than 2^32 ms apart, subtracting the two wrapped 32-bit counter readings
    modulo 2^32 gives back now2 - now1, also when the counter wrapped between
    the reads.  Every timer comparison of the tick loop is made on exactly
    this difference: with the stored instant equal to the reading at now1
    and the call made with the reading at now2, the sampling block samples
    iff now2 - now1 >= 500, [manageCradleSwing] steps iff now2 - now1 >= 30,
    [manageBuzzer] chooses the pin level, the end of the beep cycle and the
    restart of its timer from now2 - now1, and [manageDiaperAlertMessage]
    clears the alert iff now2 - now1 > 5000. *)
Theorem elapsed_wraparound_safe :
  forall now1 now2 : Z,
    0 <= now1 -> now1 < now2 -> now2 - now1 < ULONG_MOD ->
    elapsed (now2 mod ULONG_MOD) (now1 mod ULONG_MOD) = now2 - now1
    /\ (forall s, lastSensorReadTime s = now1 mod ULONG_MOD ->
          sample_due (now2 mod ULONG_MOD) s = (500 <=? now2 - now1))
    /\ (forall s, lastSwingTime s = now1 mod ULONG_MOD ->
          cradleState s <> IDLE ->
          swing_due (now2 mod ULONG_MOD) s
          = (CRADLE_SWING_SPEED <=? now2 - now1))
    /\ (forall s, diaperAlertStartTime s = now1 mod ULONG_MOD ->
          isDiaperAlertActive s = true ->
          isDiaperAlertActive (manageDiaperAlertMessage (now2 mod ULONG_MOD) s)
          = negb (5000 <? now2 - now1))
    /\ (forall inp s, lastSensorReadTime s = now1 mod ULONG_MOD ->
          lastSensorReadTime (sample inp (now2 mod ULONG_MOD) s)
          = (if 500 <=? now2 - now1
             then now2 mod ULONG_MOD else now1 mod ULONG_MOD))
    /\ (forall s, lastSwingTime s = now1 mod ULONG_MOD ->
          cradleState s <> IDLE ->
          (now2 - now1 < CRADLE_SWING_SPEED ->
           manageCradleSwing (now2 mod ULONG_MOD) s = s)
          /\ lastSwingTime (manageCradleSwing (now2 mod ULONG_MOD) s)
             = (if CRADLE_SWING_SPEED <=? now2 - now1
                then now2 mod ULONG_MOD else now1 mod ULONG_MOD))
    /\ (forall s, buzzerPatternStartTime s = now1 mod ULONG_MOD ->
          isBuzzerActive s = true -> 0 < beepCount s ->
          let on :=
            if BuzzerMode_eqb (buzzerMode s) CRY_ALERT then 200 else 500 in
          buzzerPin (manageBuzzer (now2 mod ULONG_MOD) s)
          = (if (now2 - now1) mod (on + on) <? on then HIGH else LOW)
          /\ buzzerPatternStartTime (manageBuzzer (now2 mod ULONG_MOD) s)
             = (if on + on <=? now2 - now1
                then now2 mod ULONG_MOD else now1 mod ULONG_MOD)
          /\ beepCount (manageBuzzer (now2 mod ULONG_MOD) s)
             = (if on + on <=? now2 - now1
                then wrap_int (beepCount s - 2) else beepCount s)).
Proof.
  intros now1 now2 H0 Hlt Hd.
  assert (E : elapsed (now2 mod ULONG_MOD) (now1 mod ULONG_MOD) = now2 - now1)
    by (apply elapsed_true_time; lia).
  assert (Swing : forall s, lastSwingTime s = now1 mod ULONG_MOD ->
            cradleState s <> IDLE ->
            swing_due (now2 mod ULONG_MOD) s
            = (CRADLE_SWING_SPEED <=? now2 - now1)).
  { intros s Hs Hn. unfold swing_due. rewrite Hs, E.
    destruct (CradleState_eqb (cradleState s) IDLE) eqn:Hc.
    - apply CradleState_eqb_eq in Hc. contradiction.
    - reflexivity. }
  split; [exact E|]. split; [|split; [exact Swing|split; [|split; [|split]]]].
  - intros s Hs. unfold sample_due. rewrite Hs, E. reflexivity.
  - intros s Hs Ha. unfold manageDiaperAlertMessage. rewrite Ha, Hs, E.
    simpl andb. destruct (5000 <? now2 - now1); simpl; auto.
  - intros inp s Hs. unfold sample, sample_due. rewrite Hs, E.
    destruct (500 <=? now2 - now1); [|exact Hs]. cbv zeta.
    destruct (negb (is_nan (in_temperature inp)));
      [rewrite timer_rules|]; reflexivity.
  - intros s Hs Hn. pose proof (Swing s Hs Hn) as Hdue. split.
    + intros Hlt30. apply manageCradleSwing_not_due. rewrite Hdue.
      apply Z.leb_gt. exact Hlt30.
    + destruct (CRADLE_SWING_SPEED <=? now2 - now1).
      * apply manageCradleSwing_due_time. exact Hdue.
      * rewrite manageCradleSwing_not_due by exact Hdue. exact Hs.
  - intros s Hs Ha Hc on.
    destruct (manageBuzzer_by_elapsed (now2 mod ULONG_MOD) s Ha Hc)
      as (P1 & P2 & P3).
    rewrite Hs, E in P1, P2, P3. fold on in P1, P2, P3.
    repeat split; assumption.
Qed.

Lemma elapsed_wraparound_safe_witness :
  elapsed ((2 ^ 32 + 50) mod ULONG_MOD) ((2 ^ 32 - 100) mod ULONG_MOD) = 150.
Proof.
  apply (elapsed_wraparound_safe (2 ^ 32 - 100) (2 ^ 32 + 50));
    unfold ULONG_MOD; lia.
Defined.

(** C7. [startBuzzer] is a no-op while a pattern is running: whatever mode and
    count are requested, [beepCount], [buzzerMode], [buzzerPatternStartTime]
    and [isBuzzerActive] (indeed the whole state) are unchanged. *)
Theorem startBuzzer_active_noop :
  forall (s : State) (mode : BuzzerMode) (count : Z),
    isBuzzerActive s = true ->
    startBuzzer mode count s = s
    /\ beepCount (startBuzzer mode count s) = beepCount s
    /\ buzzerMode (startBuzzer mode count s) = buzzerMode s
    /\ buzzerPatternStartTime (startBuzzer mode count s)
       = buzzerPatternStartTime s
    /\ isBuzzerActive (startBuzzer mode count s) = isBuzzerActive s.
Proof.
  intros s mode count Ha.
  assert (E : startBuzzer mode count s = s)
    by (unfold startBuzzer; rewrite Ha; reflexivity).
  rewrite E. repeat split.
Qed.

Lemma startBuzzer_active_noop_witness :
  startBuzzer CRY_ALERT 3 beeping = beeping.
Proof.
  apply (startBuzzer_active_noop beeping CRY_ALERT 3). reflexivity.
Defined.

(** *** What each function leaves alone *)

Lemma fan_handleCry v s :
  fanRelayPin (handleCry v s) = fanRelayPin s
  /\ fan_commands (trace (handleCry v s)) = fan_commands (trace s).
Proof. frame; split; reflexivity. Qed.

Lemma fan_handleUrine v s :
  fanRelayPin (handleUrine v s) = fanRelayPin s
  /\ fan_commands (trace (handleUrine v s)) = fan_commands (trace s).
Proof. frame; split; reflexivity. Qed.

Lemma fan_updateLCD x s :
  fanRelayPin (updateLCD x s) = fanRelayPin s
  /\ fan_commands (trace (updateLCD x s)) = fan_commands (trace s).
Proof. frame; split; reflexivity. Qed.

Lemma fan_manageCradleSwing t s :
  fanRelayPin (manageCradleSwing t s) = fanRelayPin s
  /\ fan_commands (trace (manageCradleSwing t s)) = fan_commands (trace s).
Proof. frame; split; reflexivity. Qed.

Lemma fan_manageBuzzer t s :
  fanRelayPin (manageBuzzer t s) = fanRelayPin s
  /\ fan_commands (trace (manageBuzzer t s)) = fan_commands (trace s).
Proof. frame; split; reflexivity. Qed.

Lemma fan_manageDiaperAlertMessage t s :
  fanRelayPin (manageDiaperAlertMessage t s) = fanRelayPin s
  /\ fan_commands (trace (manageDiaperAlertMessage t s))
     = fan_commands (trace s).
Proof. frame; split; reflexivity. Qed.

Lemma fan_advance t s :
  fanRelayPin (advance t s) = fanRelayPin s
  /\ fan_commands (trace (advance t s)) = fan_commands (trace s).
Proof.
  unfold advance.
  destruct (fan_manageDiaperAlertMessage t
              (manageBuzzer t (manageCradleSwing t s))) as [-> ->].
  destruct (fan_manageBuzzer t (manageCradleSwing t s)) as [-> ->].
  apply fan_manageCradleSwing.
Qed.

Lemma fan_handleTemperature x s :
  let l := if (TEMPERATURE_THRESHOLD <? x)%float then LOW else HIGH in
  fanRelayPin (handleTemperature x s) = l
  /\ fan_commands (trace (handleTemperature x s))
     = l :: fan_commands (trace s).
Proof. frame; split; reflexivity. Qed.

Lemma sample_valid inp t s :
  sample_due t s = true -> is_nan (in_temperature inp) = false ->
  sample inp t s
  = rules inp (delay (in_read inp) (set_lastSensorReadTime t s)).
Proof. intros Hd Hn. unfold sample. rewrite Hd, Hn. reflexivity. Qed.

Lemma sample_invalid inp t s :
  sample_due t s = true -> is_nan (in_temperature inp) = true ->
  sample inp t s = delay (in_read inp) (set_lastSensorReadTime t s).
Proof. intros Hd Hn. unfold sample. rewrite Hd, Hn. reflexivity. Qed.

Lemma sample_not_due inp t s :
  sample_due t s = false -> sample inp t s = s.
Proof. intros Hd. unfold sample. rewrite Hd. reflexivity. Qed.

Lemma samples_ok_split inp s :
  samples_ok inp s = true ->
  sample_due (loop_time inp s) (delay (in_idle inp) s) = true
  /\ is_nan (in_temperature inp) = false.
Proof.
  unfold samples_ok. intros H. apply andb_true_iff in H.
  destruct H as [Hd Hn]. apply negb_true_iff in Hn. split; auto.
Qed.

(** C9. Fan rule.  On every pass that samples a valid temperature the fan
    relay is commanded exactly once, ON (pin LOW) when the temperature is
    strictly above 30.0 and OFF (pin HIGH) otherwise, whatever the state
    before the pass; the temperatures 25.0, 31.0, 29.0 on successive sampling
    passes give the fan states OFF, ON, OFF. *)
Theorem fan_rule :
  (forall (inp : TickInput) (s : State),
      samples_ok inp s = true ->
      fan_on (loop inp s) = (TEMPERATURE_THRESHOLD <? in_temperature inp)%float
      /\ fan_commands (trace (loop inp s))
         = (if (TEMPERATURE_THRESHOLD <? in_temperature inp)%float
            then LOW else HIGH) :: fan_commands (trace s))
  /\ fan_history [calm 25; calm 31; calm 29] boot = [false; true; false].
Proof.
  split; [|vm_compute; reflexivity].
  intros inp s Hok. apply samples_ok_split in Hok. destruct Hok as [Hd Hn].
  unfold fan_on, loop. fold (loop_time inp s).
  rewrite (sample_valid _ _ _ Hd Hn).
  set (s1 := delay (in_read inp)
               (set_lastSensorReadTime (loop_time inp s)
                  (delay (in_idle inp) s))).
  destruct (fan_advance (loop_time inp s) (rules inp s1)) as [-> ->].
  unfold rules.
  destruct (fan_updateLCD (in_temperature inp)
              (handleUrine (in_soil inp)
                 (handleCry (in_sound inp)
                    (handleTemperature (in_temperature inp) s1))))
    as [-> ->].
  destruct (fan_handleUrine (in_soil inp)
              (handleCry (in_sound inp)
                 (handleTemperature (in_temperature inp) s1))) as [-> ->].
  destruct (fan_handleCry (in_sound inp)
              (handleTemperature (in_temperature inp) s1)) as [-> ->].
  destruct (fan_handleTemperature (in_temperature inp) s1) as [-> ->].
  assert (Et : fan_commands (trace s1) = fan_commands (trace s))
    by (unfold s1; destruct s; reflexivity).
  rewrite Et.
  destruct (TEMPERATURE_THRESHOLD <? in_temperature inp)%float;
    split; reflexivity.
Qed.

Lemma fan_rule_witness :
  fan_on (loop (calm 31) boot) = true.
Proof.
  destruct (proj1 fan_rule (calm 31) boot) as [H _];
    [vm_compute; reflexivity | rewrite H; vm_compute; reflexivity].
Defined.

Lemma timer_advance t s :
  lastSensorReadTime (advance t s) = lastSensorReadTime s.
Proof.
  unfold advance.
  assert (A : forall u, lastSensorReadTime (manageDiaperAlertMessage t u)
                        = lastSensorReadTime u) by (clear; frame).
  assert (B : forall u, lastSensorReadTime (manageBuzzer t u)
                        = lastSensorReadTime u) by (clear; frame).
  assert (C : forall u, lastSensorReadTime (manageCradleSwing t u)
                        = lastSensorReadTime u) by (clear; frame).
  rewrite A, B, C. reflexivity.
Qed.

(** A due pass leaves the sampling timer at its own instant, whatever the
    reading. *)
Lemma timer_loop_due inp s :
  sample_due (loop_time inp s) s = true ->
  lastSensorReadTime (loop inp s) = loop_time inp s.
Proof.
  intros Hd. unfold loop. fold (loop_time inp s).
  rewrite timer_advance. unfold sample.
  replace (sample_due (loop_time inp s) (delay (in_idle inp) s)) with true
    by (symmetry; exact Hd).
  cbv zeta. destruct (negb (is_nan (in_temperature inp)));
    [rewrite timer_rules|]; reflexivity.
Qed.

(** C6. Invalid temperature reading.  On a pass whose sampling is due and
    whose temperature read is NaN, the sampling block changes nothing but the
    sampling timer and the clock: no rule runs, the display is not updated,
    no event is issued, the fan, cradle, buzzer and diaper-alert state are
    untouched.  The pass then only advances the ongoing actions.  The timer
    is left at the instant of the pass, exactly as with any other reading,
    so the next sample is attempted on the first pass at least 500 ms after
    this one. *)
Theorem invalid_reading_skips_rules :
  forall (inp : TickInput) (s : State),
    sample_due (loop_time inp s) s = true ->
    is_nan (in_temperature inp) = true ->
    let now := loop_time inp s in
    let s1 := sample inp now (delay (in_idle inp) s) in
    s1 = set_lastSensorReadTime now
           (set_clock (clock s + in_idle inp + in_read inp) s)
    /\ trace s1 = trace s
    /\ fanRelayPin s1 = fanRelayPin s
    /\ cradle_fields s1 = cradle_fields s
    /\ buzzer_fields s1 = buzzer_fields s
    /\ isDiaperAlertActive s1 = isDiaperAlertActive s
    /\ diaperAlertStartTime s1 = diaperAlertStartTime s
    /\ loop inp s = advance now s1
    /\ lastSensorReadTime (loop inp s) = now
    /\ (forall x : float,
          lastSensorReadTime
            (loop (mkInput (in_idle inp) (in_read inp) x (in_soil inp)
                     (in_sound inp)) s) = now)
    /\ (forall later : Z,
          sample_due later (loop inp s) = (500 <=? elapsed later now)).
Proof.
  intros inp s Hd Hn now s1.
  assert (E : s1 = set_lastSensorReadTime now
                     (set_clock (clock s + in_idle inp + in_read inp) s)).
  { unfold s1. rewrite sample_invalid by assumption. reflexivity. }
  assert (L : loop inp s = advance now s1) by reflexivity.
  assert (T : lastSensorReadTime (loop inp s) = now).
  { rewrite L, timer_advance, E. destruct s; reflexivity. }
  split; [exact E|].
  rewrite E.
  repeat (split; [destruct s; reflexivity|]).
  split; [rewrite <- E; exact L|].
  split; [exact T|].
  split; [intros x; apply timer_loop_due; exact Hd|].
  intros later. unfold sample_due. rewrite T. reflexivity.
Qed.

Lemma invalid_reading_skips_rules_witness :
  sample (pass NAN 400 LOW) 7000 (delay 500 boot)
  = set_lastSensorReadTime 7000 (set_clock 7000 boot).
Proof.
  apply (invalid_reading_skips_rules (pass NAN 400 LOW) boot);
    vm_compute; reflexivity.
Defined.

(** *** Buzzer invariant *)

Lemma buzzer_inv_ext s s' :
  buzzer_fields s' = buzzer_fields s -> buzzer_inv s -> buzzer_inv s'.
Proof.
  unfold buzzer_fields, buzzer_inv. intros E H.
  injection E as Ea Em Ec _. rewrite Ea, Em, Ec. exact H.
Qed.

Lemma buzzer_inv_startBuzzer mode s :
  buzzer_inv s -> buzzer_inv (startBuzzer mode 3 s).
Proof.
  unfold buzzer_inv, startBuzzer. intros H.
  destruct (isBuzzerActive s) eqn:Ha; [rewrite Ha; exact H|].
  open_state s; sketch. change (wrap_int (3 * 2)) with 6.
  split; [auto | discriminate].
Qed.

Lemma buzzer_fields_sendSMS n m s :
  buzzer_fields (sendSMS n m s) = buzzer_fields s.
Proof. frame. Qed.

Lemma buzzer_inv_handleCry v s :
  buzzer_inv s -> buzzer_inv (handleCry v s).
Proof.
  intros H. unfold handleCry.
  destruct (Level_eqb v LOW && CradleState_eqb (cradleState s) IDLE); auto.
  cbv zeta. eapply buzzer_inv_ext; [apply buzzer_fields_sendSMS|].
  apply buzzer_inv_startBuzzer.
  eapply buzzer_inv_ext; [|exact H]. reflexivity.
Qed.

Lemma buzzer_inv_handleUrine v s :
  buzzer_inv s -> buzzer_inv (handleUrine v s).
Proof.
  intros H. unfold handleUrine.
  destruct ((v <? WETNESS_THRESHOLD) && negb (isDiaperAlertActive s)); auto.
  cbv zeta. eapply buzzer_inv_ext; [apply buzzer_fields_sendSMS|].
  apply buzzer_inv_startBuzzer.
  eapply buzzer_inv_ext; [|exact H]. reflexivity.
Qed.

Lemma buzzer_inv_manageBuzzer t s :
  buzzer_inv s -> buzzer_inv (manageBuzzer t s).
Proof.
  unfold buzzer_inv. intros [Hc Hi]. branches; sketch in *.
  all: repeat match goal with
       | H : negb _ = true |- _ => apply negb_true_iff in H; subst
       | H : negb _ = false |- _ => apply negb_false_iff in H; subst
       | H : (0 <? _) = true |- _ => apply Z.ltb_lt in H
       | H : (0 <? _) = false |- _ => apply Z.ltb_ge in H
       end.
  all: try rewrite wrap_int_small by (unfold INT_MAX; lia).
  all: first [ split; [lia|discriminate]
             | split; [lia|intros _; split; [reflexivity|lia]]
             | split; assumption ].
Qed.

Lemma buzzer_fields_handleTemperature x s :
  buzzer_fields (handleTemperature x s) = buzzer_fields s.
Proof. frame. Qed.

Lemma buzzer_fields_updateLCD x s :
  buzzer_fields (updateLCD x s) = buzzer_fields s.
Proof. frame. Qed.

Lemma buzzer_fields_manageCradleSwing t s :
  buzzer_fields (manageCradleSwing t s) = buzzer_fields s.
Proof. frame. Qed.

Lemma buzzer_fields_manageDiaperAlertMessage t s :
  buzzer_fields (manageDiaperAlertMessage t s) = buzzer_fields s.
Proof. frame. Qed.

Lemma buzzer_inv_sample inp t s :
  buzzer_inv s -> buzzer_inv (sample inp t s).
Proof.
  intros H. unfold sample. destruct (sample_due t s); auto. cbv zeta.
  assert (H1 : buzzer_inv (delay (in_read inp) (set_lastSensorReadTime t s)))
    by (eapply buzzer_inv_ext; [|exact H]; reflexivity).
  destruct (negb (is_nan (in_temperature inp))); auto.
  unfold rules.
  eapply buzzer_inv_ext; [apply buzzer_fields_updateLCD|].
  apply buzzer_inv_handleUrine, buzzer_inv_handleCry.
  eapply buzzer_inv_ext; [apply buzzer_fields_handleTemperature|exact H1].
Qed.

Lemma buzzer_inv_loop inp s :
  buzzer_inv s -> buzzer_inv (loop inp s).
Proof.
  intros H. unfold loop, advance.
  eapply buzzer_inv_ext; [apply buzzer_fields_manageDiaperAlertMessage|].
  apply buzzer_inv_manageBuzzer.
  eapply buzzer_inv_ext; [apply buzzer_fields_manageCradleSwing|].
  apply buzzer_inv_sample.
  eapply buzzer_inv_ext; [|exact H]. reflexivity.
Qed.

Lemma buzzer_inv_run inps :
  forall s, buzzer_inv s -> buzzer_inv (run inps s).
Proof.
  induction inps as [|inp rest IH]; intros s H; simpl; auto.
  apply IH, buzzer_inv_loop, H.
Qed.

(** C8. In every state reachable from boot by passes of [loop()] (whose only
    calls of [startBuzzer] are those of the cry and wetness rules, with
    count 3), however long [setup()] took, an inactive buzzer has mode OFF
    and beep count 0. *)
Theorem inactive_buzzer_is_reset :
  forall (t0 : Z) (inps : list TickInput),
    isBuzzerActive (run inps (after_setup t0)) = false ->
    buzzerMode (run inps (after_setup t0)) = OFF
    /\ beepCount (run inps (after_setup t0)) = 0.
Proof.
  intros t0 inps.
  assert (H : buzzer_inv (run inps (after_setup t0))).
  { apply buzzer_inv_run. unfold buzzer_inv. simpl. auto. }
  exact (proj2 H).
Qed.

Lemma inactive_buzzer_is_reset_witness :
  buzzerMode (run (crying :: repeat (calm 25) 5) boot) = OFF
  /\ beepCount (run (crying :: repeat (calm 25) 5) boot) = 0.
Proof.
  apply (inactive_buzzer_is_reset 6500 (crying :: repeat (calm 25) 5)).
  vm_compute. reflexivity.
Defined.

(** *** Cradle state machine *)

Lemma angle_manageCradleSwing t s :
  angle_in_range s -> angle_in_range (manageCradleSwing t s).
Proof.
  unfold angle_in_range.
  intros H. branches; sketch in *; constants; zbool; lia.
Qed.

Lemma manageCradleSwing_idle_iff t s :
  (cradleState s <> IDLE /\ cradleState (manageCradleSwing t s) = IDLE)
  <-> (cradleState s = RETURNING /\ swing_due t s = true
       /\ servo_read s = CRADLE_POS_REST).
Proof.
  unfold swing_due.
  branches; sketch in *; constants; subst;
    cbn [CradleState_eqb orb andb negb] in *.
  all: zbool.
  all: split; [intros [Hn He] | intros [He [Hd Hp]]]; zbool.
  all: try congruence; try lia.
  all: try (subst; cbn in *; zbool; lia).
  all: repeat split; try discriminate; try reflexivity;
    try (apply Z.leb_le; assumption); lia.
Qed.

Lemma cradle_fields_handleTemperature x s :
  cradle_fields (handleTemperature x s) = cradle_fields s.
Proof. frame. Qed.

Lemma cradle_fields_handleUrine v s :
  cradle_fields (handleUrine v s) = cradle_fields s.
Proof. frame. Qed.

Lemma cradle_fields_updateLCD x s :
  cradle_fields (updateLCD x s) = cradle_fields s.
Proof. frame. Qed.

Lemma cradle_fields_manageBuzzer t s :
  cradle_fields (manageBuzzer t s) = cradle_fields s.
Proof. frame. Qed.

Lemma cradle_fields_manageDiaperAlertMessage t s :
  cradle_fields (manageDiaperAlertMessage t s) = cradle_fields s.
Proof. frame. Qed.

Lemma handleCry_busy v s :
  cradleState s <> IDLE -> handleCry v s = s.
Proof.
  intros H. unfold handleCry.
  destruct (CradleState_eqb (cradleState s) IDLE) eqn:E.
  - apply CradleState_eqb_eq in E. contradiction.
  - rewrite andb_false_r. reflexivity.
Qed.

Lemma handleCry_servo v s :
  servoPos (handleCry v s) = servoPos s
  /\ lastSwingTime (handleCry v s) = lastSwingTime s.
Proof. frame; split; reflexivity. Qed.

(** Equal cradle fields, spelled out. *)
Lemma cradle_fields_inv s s' :
  cradle_fields s' = cradle_fields s ->
  cradleState s' = cradleState s /\ swingCycles s' = swingCycles s
  /\ servoPos s' = servoPos s /\ lastSwingTime s' = lastSwingTime s.
Proof. unfold cradle_fields. intros E. injection E. auto. Qed.

Lemma rules_servo inp s :
  servoPos (rules inp s) = servoPos s
  /\ lastSwingTime (rules inp s) = lastSwingTime s.
Proof.
  unfold rules.
  destruct (cradle_fields_inv _ _
              (cradle_fields_updateLCD (in_temperature inp)
                 (handleUrine (in_soil inp)
                    (handleCry (in_sound inp)
                       (handleTemperature (in_temperature inp) s)))))
    as (_ & _ & -> & ->).
  destruct (cradle_fields_inv _ _
              (cradle_fields_handleUrine (in_soil inp)
                 (handleCry (in_sound inp)
                    (handleTemperature (in_temperature inp) s))))
    as (_ & _ & -> & ->).
  destruct (handleCry_servo (in_sound inp)
              (handleTemperature (in_temperature inp) s)) as [-> ->].
  destruct (cradle_fields_inv _ _
              (cradle_fields_handleTemperature (in_temperature inp) s))
    as (_ & _ & -> & ->).
  split; reflexivity.
Qed.

Lemma rules_busy inp s :
  cradleState s <> IDLE -> cradle_fields (rules inp s) = cradle_fields s.
Proof.
  intros H. unfold rules.
  rewrite cradle_fields_updateLCD, cradle_fields_handleUrine.
  rewrite handleCry_busy.
  - apply cradle_fields_handleTemperature.
  - destruct (cradle_fields_inv _ _
                (cradle_fields_handleTemperature (in_temperature inp) s))
      as (-> & _). exact H.
Qed.

Lemma sample_servo inp t s :
  servoPos (sample inp t s) = servoPos s
  /\ lastSwingTime (sample inp t s) = lastSwingTime s.
Proof.
  unfold sample. destruct (sample_due t s); [|split; reflexivity].
  cbv zeta. destruct (negb (is_nan (in_temperature inp)));
    [|split; reflexivity].
  destruct (rules_servo inp
              (delay (in_read inp) (set_lastSensorReadTime t s))) as [-> ->].
  split; reflexivity.
Qed.

Lemma sample_busy inp t s :
  cradleState s <> IDLE -> cradle_fields (sample inp t s) = cradle_fields s.
Proof.
  intros H. unfold sample. destruct (sample_due t s); [|reflexivity].
  cbv zeta. destruct (negb (is_nan (in_temperature inp))); [|reflexivity].
  rewrite rules_busy; [reflexivity | exact H].
Qed.

Lemma advance_cradle t s :
  cradle_fields (advance t s) = cradle_fields (manageCradleSwing t s).
Proof.
  unfold advance.
  rewrite cradle_fields_manageDiaperAlertMessage, cradle_fields_manageBuzzer.
  reflexivity.
Qed.

(** The cradle step taken inside a pass: on the state the sampling block
    leaves, at the instant of the pass. *)
Lemma loop_cradle inp s :
  cradle_fields (loop inp s)
  = cradle_fields
      (manageCradleSwing (loop_time inp s)
         (sample inp (loop_time inp s) (delay (in_idle inp) s))).
Proof. unfold loop. apply advance_cradle. Qed.

Lemma angle_loop inp s :
  angle_in_range s -> angle_in_range (loop inp s).
Proof.
  intros H. unfold angle_in_range.
  destruct (cradle_fields_inv _ _ (loop_cradle inp s)) as (_ & _ & -> & _).
  apply angle_manageCradleSwing. unfold angle_in_range.
  destruct (sample_servo inp (loop_time inp s) (delay (in_idle inp) s))
    as [-> _].
  exact H.
Qed.

Lemma angle_run inps :
  forall s, angle_in_range s -> angle_in_range (run inps s).
Proof.
  induction inps as [|inp rest IH]; intros s H; simpl; auto.
  apply IH, angle_loop, H.
Qed.

Lemma angle_after_setup t0 : angle_in_range (after_setup t0).
Proof. unfold angle_in_range, after_setup; simpl; constants; lia. Qed.

Lemma loop_idle_iff inp s :
  (cradleState s <> IDLE /\ cradleState (loop inp s) = IDLE)
  <-> (cradleState s = RETURNING /\ swing_due (loop_time inp s) s = true
       /\ servo_read s = CRADLE_POS_REST).
Proof.
  set (t := loop_time inp s).
  set (s1 := sample inp t (delay (in_idle inp) s)).
  destruct (cradle_fields_inv _ _ (loop_cradle inp s)) as (Ec & _).
  fold t in Ec. fold s1 in Ec. rewrite Ec.
  assert (B : cradleState s <> IDLE ->
              cradleState s1 = cradleState s
              /\ swing_due t s1 = swing_due t s
              /\ servo_read s1 = servo_read s).
  { intros Hn.
    destruct (cradle_fields_inv _ _
                (sample_busy inp t (delay (in_idle inp) s) Hn))
      as (E1 & _ & E3 & E4).
    unfold swing_due, servo_read. fold s1 in E1, E3, E4.
    rewrite E1, E3, E4. repeat split. }
  split.
  - intros [Hn Hi]. destruct (B Hn) as (E1 & E2 & E3).
    rewrite <- E1, <- E2, <- E3. apply manageCradleSwing_idle_iff.
    split; [rewrite E1; exact Hn | exact Hi].
  - intros (Hr & Hd & Hp).
    assert (Hn : cradleState s <> IDLE) by (rewrite Hr; discriminate).
    destruct (B Hn) as (E1 & E2 & E3). split; [exact Hn|].
    apply manageCradleSwing_idle_iff. rewrite E1, E2, E3. auto.
Qed.

(** C1. Cradle invariant.  In every state reachable from boot (servo at 60
    degrees, whatever time [setup()] took) the servo angle is within
    [30, 90], and it is still within [30, 90] right after the cradle step of
    any further pass; the state machine goes to IDLE, in a direct call
    of the step function and in a whole pass alike, if and only if it is in
    RETURNING, a step is due and the step reads the angle 60. *)
Theorem cradle_angle_and_idle :
  forall (t0 : Z) (inps : list TickInput),
    let s := run inps (after_setup t0) in
    angle_in_range s
    /\ (forall inp : TickInput,
          angle_in_range
            (manageCradleSwing (loop_time inp s)
               (sample inp (loop_time inp s) (delay (in_idle inp) s)))
          /\ angle_in_range (loop inp s))
    /\ (forall t : Z,
          (cradleState s <> IDLE
           /\ cradleState (manageCradleSwing t s) = IDLE)
          <-> (cradleState s = RETURNING /\ swing_due t s = true
               /\ servo_read s = CRADLE_POS_REST))
    /\ (forall inp : TickInput,
          (cradleState s <> IDLE /\ cradleState (loop inp s) = IDLE)
          <-> (cradleState s = RETURNING
               /\ swing_due (loop_time inp s) s = true
               /\ servo_read s = CRADLE_POS_REST)).
Proof.
  intros t0 inps s.
  assert (H : angle_in_range s) by (apply angle_run, angle_after_setup).
  split; [exact H|]. split; [|split].
  - intros inp. split; [|apply angle_loop, H].
    apply angle_manageCradleSwing. unfold angle_in_range.
    destruct (sample_servo inp (loop_time inp s) (delay (in_idle inp) s))
      as [-> _].
    exact H.
  - intros t. apply manageCradleSwing_idle_iff.
  - intros inp. apply loop_idle_iff.
Qed.

Lemma cradle_angle_and_idle_witness :
  angle_in_range (run (repeat crying 40) boot).
Proof.
  exact (proj1 (cradle_angle_and_idle 6500 (repeat crying 40))).
Defined.

(** *** Sweeps of the swing *)

Lemma cradle_fields_eq s c n a t :
  cradle_fields s = (c, n, a, t) ->
  cradleState s = c /\ swingCycles s = n /\ servoPos s = a
  /\ lastSwingTime s = t.
Proof. unfold cradle_fields. intros E. injection E. auto. Qed.

Lemma step_forward t s :
  cradleState s = SWINGING_FORWARD ->
  CRADLE_SWING_SPEED <= elapsed t (lastSwingTime s) ->
  cradle_fields (manageCradleSwing t s)
  = if servoPos s <? CRADLE_POS_MAX
    then (SWINGING_FORWARD, swingCycles s, servoPos s + 1, t)
    else (SWINGING_BACK, swingCycles s, servoPos s, t).
Proof.
  intros Hc Hd. branches; sketch in *; constants; subst;
    cbn [CradleState_eqb orb] in *; zbool;
    try discriminate; try reflexivity; lia.
Qed.

Lemma step_back t s :
  cradleState s = SWINGING_BACK ->
  CRADLE_SWING_SPEED <= elapsed t (lastSwingTime s) ->
  cradle_fields (manageCradleSwing t s)
  = if CRADLE_POS_MIN <? servoPos s
    then (SWINGING_BACK, swingCycles s, servoPos s - 1, t)
    else (if 0 <? wrap_int (swingCycles s - 1)
          then SWINGING_FORWARD else RETURNING,
          wrap_int (swingCycles s - 1), servoPos s, t).
Proof.
  intros Hc Hd. branches; sketch in *; constants; subst;
    cbn [CradleState_eqb orb] in *; zbool;
    try discriminate; try reflexivity; lia.
Qed.

Lemma swing_until_returning_step t ts s lg :
  cradleState s <> RETURNING ->
  swing_until_returning (t :: ts) s lg
  = swing_until_returning ts (manageCradleSwing t s)
      (lg ++ turn s (manageCradleSwing t s)).
Proof.
  intros H. simpl. destruct (cradleState s); try reflexivity. congruence.
Qed.

Lemma swing_until_returning_done ts s lg :
  cradleState s = RETURNING -> swing_until_returning ts s lg = Some (s, lg).
Proof. intros H. destruct ts; simpl; rewrite H; reflexivity. Qed.

(** The forward sweep: from angle [90 - n], [n] steps up and one step to
    turn. *)
Lemma climb (n : nat) :
  forall ts s lg,
    cradleState s = SWINGING_FORWARD ->
    servoPos s = CRADLE_POS_MAX - Z.of_nat n ->
    due_chain (lastSwingTime s) ts = true ->
    (n < List.length ts)%nat ->
    exists ts' s',
      swing_until_returning ts s lg
      = swing_until_returning ts' s' (lg ++ [Peak CRADLE_POS_MAX])
      /\ cradleState s' = SWINGING_BACK
      /\ servoPos s' = CRADLE_POS_MAX
      /\ swingCycles s' = swingCycles s
      /\ due_chain (lastSwingTime s') ts' = true
      /\ List.length ts = (List.length ts' + n + 1)%nat.
Proof.
  induction n as [|n IH]; intros ts s lg Hc Hp Hd Hl;
    (destruct ts as [|t ts]; [simpl in Hl; lia|]);
    simpl in Hd; apply andb_true_iff in Hd; destruct Hd as [Hd1 Hd2];
    apply Z.leb_le in Hd1;
    (rewrite swing_until_returning_step by (rewrite Hc; discriminate));
    pose proof (step_forward t s Hc Hd1) as E.
  - replace (servoPos s <? CRADLE_POS_MAX) with false in E
      by (symmetry; apply Z.ltb_ge; lia).
    apply cradle_fields_eq in E.
    destruct E as (E1 & E2 & E3 & E4).
    exists ts, (manageCradleSwing t s).
    unfold turn. rewrite Hc, E1, E3, Hp, E4.
    replace (CRADLE_POS_MAX - Z.of_nat 0) with CRADLE_POS_MAX by lia.
    repeat split; auto. simpl. lia.
  - replace (servoPos s <? CRADLE_POS_MAX) with true in E
      by (symmetry; apply Z.ltb_lt; lia).
    apply cradle_fields_eq in E.
    destruct E as (E1 & E2 & E3 & E4).
    unfold turn. rewrite Hc, E1, app_nil_r.
    destruct (IH ts (manageCradleSwing t s) lg) as (ts' & s' & R);
      [exact E1 | lia | rewrite E4; exact Hd2 | simpl in Hl; lia |].
    destruct R as (R1 & R2 & R3 & R4 & R5 & R6).
    exists ts', s'. rewrite R1, R4, E2.
    repeat split; auto. simpl. lia.
Qed.

(** The backward sweep: from angle [30 + n], [n] steps down and one step
    that counts the cycle and chooses the next state. *)
Lemma descend (n : nat) :
  forall ts s lg,
    cradleState s = SWINGING_BACK ->
    servoPos s = CRADLE_POS_MIN + Z.of_nat n ->
    1 <= swingCycles s <= INT_MAX ->
    due_chain (lastSwingTime s) ts = true ->
    (n < List.length ts)%nat ->
    exists ts' s',
      swing_until_returning ts s lg
      = swing_until_returning ts' s' (lg ++ [Trough CRADLE_POS_MIN])
      /\ cradleState s'
         = (if 1 <? swingCycles s then SWINGING_FORWARD else RETURNING)
      /\ servoPos s' = CRADLE_POS_MIN
      /\ swingCycles s' = swingCycles s - 1
      /\ due_chain (lastSwingTime s') ts' = true
      /\ List.length ts = (List.length ts' + n + 1)%nat.
Proof.
  induction n as [|n IH]; intros ts s lg Hc Hp Hn Hd Hl;
    (destruct ts as [|t ts]; [simpl in Hl; lia|]);
    simpl in Hd; apply andb_true_iff in Hd; destruct Hd as [Hd1 Hd2];
    apply Z.leb_le in Hd1;
    (rewrite swing_until_returning_step by (rewrite Hc; discriminate));
    pose proof (step_back t s Hc Hd1) as E.
  - replace (CRADLE_POS_MIN <? servoPos s) with false in E
      by (symmetry; apply Z.ltb_ge; lia).
    rewrite wrap_int_small in E by (unfold INT_MAX in *; lia).
    replace (0 <? swingCycles s - 1) with (1 <? swingCycles s) in E
      by (destruct (Z.ltb_spec 1 (swingCycles s));
          destruct (Z.ltb_spec 0 (swingCycles s - 1)); auto; lia).
    apply cradle_fields_eq in E.
    destruct E as (E1 & E2 & E3 & E4).
    exists ts, (manageCradleSwing t s).
    assert (T : turn s (manageCradleSwing t s) = [Trough CRADLE_POS_MIN]).
    { unfold turn. rewrite Hc, E1, E3, Hp.
      replace (CRADLE_POS_MIN + Z.of_nat 0) with CRADLE_POS_MIN by lia.
      destruct (1 <? swingCycles s); reflexivity. }
    rewrite T, E3, E4, Hp.
    repeat split; auto; simpl; lia.
  - replace (CRADLE_POS_MIN <? servoPos s) with true in E
      by (symmetry; apply Z.ltb_lt; lia).
    apply cradle_fields_eq in E.
    destruct E as (E1 & E2 & E3 & E4).
    unfold turn. rewrite Hc, E1, app_nil_r.
    destruct (IH ts (manageCradleSwing t s) lg) as (ts' & s' & R);
      [exact E1 | lia | rewrite E2; exact Hn | rewrite E4; exact Hd2
      | simpl in Hl; lia |].
    destruct R as (R1 & R2 & R3 & R4 & R5 & R6).
    exists ts', s'. rewrite R1, R2, R4, E2.
    repeat split; auto. simpl. lia.
Qed.

Lemma swing_cycles (n : nat) :
  forall ts s lg,
    cradleState s = SWINGING_FORWARD ->
    swingCycles s = Z.of_nat (S n) ->
    swingCycles s <= INT_MAX ->
    angle_in_range s ->
    due_chain (lastSwingTime s) ts = true ->
    swing_steps (swingCycles s) (servoPos s) <= Z.of_nat (List.length ts) ->
    exists s',
      swing_until_returning ts s lg = Some (s', lg ++ sweeps (S n))
      /\ cradleState s' = RETURNING
      /\ servoPos s' = CRADLE_POS_MIN
      /\ swingCycles s' = 0.
Proof.
  induction n as [|n IH]; intros ts s lg Hc Hn Hm Ha Hd Hl;
    unfold angle_in_range, swing_steps in *;
    (destruct (climb (Z.to_nat (CRADLE_POS_MAX - servoPos s)) ts s lg)
      as (ts1 & s1 & C1 & C2 & C3 & C4 & C5 & C6);
      [exact Hc | constants; lia | exact Hd | constants; lia |]);
    (destruct (descend 60 ts1 s1 (lg ++ [Peak CRADLE_POS_MAX]))
      as (ts2 & s2 & D1 & D2 & D3 & D4 & D5 & D6);
      [exact C2 | rewrite C3; constants; lia | rewrite C4; lia | exact C5
      | constants; lia |]);
    rewrite C1, D1, <- app_assoc; cbn [app];
    rewrite C4 in D2, D4.
  - replace (1 <? swingCycles s) with false in D2
      by (symmetry; apply Z.ltb_ge; lia).
    exists s2. rewrite swing_until_returning_done by exact D2.
    repeat split; auto. lia.
  - replace (1 <? swingCycles s) with true in D2
      by (symmetry; apply Z.ltb_lt; lia).
    destruct (IH ts2 s2
                (lg ++ [Peak CRADLE_POS_MAX; Trough CRADLE_POS_MIN]))
      as (s' & R1 & R2 & R3 & R4);
      [exact D2 | lia | lia | unfold angle_in_range; constants; lia
      | exact D5 | unfold swing_steps; constants; lia |].
    exists s'. rewrite R1, <- app_assoc. cbn [app sweeps].
    repeat split; auto.
Qed.

(** C3. Swing cycles.  For every N >= 1 (up to the largest [int]), a cradle
    in SWINGING_FORWARD with [swingCycles = N] and its angle within [30, 90],
    advanced at instants that are each due, enters RETURNING after turning
    exactly N times at 90 degrees and N times at 30 degrees, alternately and
    peak first; it enters RETURNING at 30 degrees with no cycle left.  The
    cry rule is the case N = 3. *)
Theorem swing_performs_N_sweeps :
  forall (N : Z) (s : State) (ts : list Z),
    1 <= N <= INT_MAX ->
    cradleState s = SWINGING_FORWARD ->
    swingCycles s = N ->
    angle_in_range s ->
    due_chain (lastSwingTime s) ts = true ->
    swing_steps N (servoPos s) <= Z.of_nat (List.length ts) ->
    exists s',
      swing_until_returning ts s [] = Some (s', sweeps (Z.to_nat N))
      /\ cradleState s' = RETURNING
      /\ servoPos s' = CRADLE_POS_MIN
      /\ swingCycles s' = 0.
Proof.
  intros N s ts HN Hc Hn Ha Hd Hl.
  destruct (Z.to_nat N) as [|n] eqn:En; [lia|].
  apply (swing_cycles n ts s []); auto; try lia.
  rewrite Hn. exact Hl.
Qed.

Lemma swing_performs_N_sweeps_witness :
  exists s',
    swing_until_returning (every_30ms 6500 336) (triggered 3) []
    = Some (s', sweeps 3)
    /\ cradleState s' = RETURNING
    /\ servoPos s' = CRADLE_POS_MIN
    /\ swingCycles s' = 0.
Proof.
  apply (swing_performs_N_sweeps 3 (triggered 3) (every_30ms 6500 336));
    try reflexivity; vm_compute; try split; congruence.
Defined.

(** *** Cry rule *)

Lemma cry_sends_handleTemperature x s :
  cry_sends (handleTemperature x s) = cry_sends s.
Proof. frame. Qed.

Lemma cry_sends_handleUrine v s :
  cry_sends (handleUrine v s) = cry_sends s.
Proof. frame. Qed.

Lemma cry_sends_updateLCD x s :
  cry_sends (updateLCD x s) = cry_sends s.
Proof. frame. Qed.

Lemma cry_sends_manageCradleSwing t s :
  cry_sends (manageCradleSwing t s) = cry_sends s.
Proof. frame. Qed.

Lemma cry_sends_manageBuzzer t s :
  cry_sends (manageBuzzer t s) = cry_sends s.
Proof. frame. Qed.

Lemma cry_sends_manageDiaperAlertMessage t s :
  cry_sends (manageDiaperAlertMessage t s) = cry_sends s.
Proof. frame. Qed.

Lemma cry_sends_advance t s : cry_sends (advance t s) = cry_sends s.
Proof.
  unfold advance.
  rewrite cry_sends_manageDiaperAlertMessage, cry_sends_manageBuzzer.
  apply cry_sends_manageCradleSwing.
Qed.

Lemma handleCry_fires s :
  cradleState s = IDLE ->
  cradleState (handleCry LOW s) = SWINGING_FORWARD
  /\ swingCycles (handleCry LOW s) = 3
  /\ cry_sends (handleCry LOW s) = S (cry_sends s)
  /\ (isBuzzerActive s = false ->
      buzzer_fields (handleCry LOW s) = (true, CRY_ALERT, 6, millis s))
  /\ (isBuzzerActive s = true ->
      buzzer_fields (handleCry LOW s) = buzzer_fields s).
Proof.
  intros Hc. branches; sketch in *; subst; try discriminate.
  - repeat split; try reflexivity. discriminate.
  - repeat split; try reflexivity. discriminate.
Qed.

Lemma cry_sends_rules_busy inp s :
  cradleState s <> IDLE -> cry_sends (rules inp s) = cry_sends s.
Proof.
  intros H. unfold rules.
  rewrite cry_sends_updateLCD, cry_sends_handleUrine, handleCry_busy.
  - apply cry_sends_handleTemperature.
  - destruct (cradle_fields_inv _ _
                (cradle_fields_handleTemperature (in_temperature inp) s))
      as (-> & _). exact H.
Qed.

Lemma cry_sends_loop_busy inp s :
  cradleState s <> IDLE -> cry_sends (loop inp s) = cry_sends s.
Proof.
  intros H. unfold loop. rewrite cry_sends_advance. unfold sample.
  destruct (sample_due _ _); [|reflexivity]. cbv zeta.
  destruct (negb (is_nan (in_temperature inp))); [|reflexivity].
  rewrite cry_sends_rules_busy; [reflexivity | exact H].
Qed.

Lemma cry_sends_run_busy rest :
  forall s, busy_throughout rest s = true ->
            cry_sends (run rest s) = cry_sends s.
Proof.
  induction rest as [|inp rest IH]; intros s H; simpl in *; auto.
  apply andb_true_iff in H. destruct H as [Hb Hr].
  rewrite IH by exact Hr. apply cry_sends_loop_busy.
  intros E. rewrite E in Hb. discriminate.
Qed.

Lemma before_cry_fields inp s :
  cradle_fields (before_cry inp s) = cradle_fields s
  /\ buzzer_fields (before_cry inp s) = buzzer_fields s
  /\ cry_sends (before_cry inp s) = cry_sends s.
Proof.
  unfold before_cry.
  rewrite cradle_fields_handleTemperature, buzzer_fields_handleTemperature,
    cry_sends_handleTemperature.
  repeat split.
Qed.

Lemma loop_valid inp s :
  samples_ok inp s = true ->
  loop inp s
  = advance (loop_time inp s)
      (updateLCD (in_temperature inp)
         (handleUrine (in_soil inp)
            (handleCry (in_sound inp) (before_cry inp s)))).
Proof.
  intros H. apply samples_ok_split in H. destruct H as [Hd Hn].
  unfold loop. fold (loop_time inp s).
  rewrite (sample_valid _ _ _ Hd Hn). reflexivity.
Qed.

(** C2, as the code has it.  The cry rule does nothing while the cradle is
    away from IDLE.  On a pass that samples a valid temperature with the cry
    sensor LOW and the cradle IDLE, the rule puts the cradle in
    SWINGING_FORWARD with 3 cycles, arms the buzzer (only if it is inactive)
    in CRY_ALERT mode with count 3, that is a beep count of 6 half-phases,
    and hands the crying message to the modem once; no further crying message
    is sent for as long as the cradle stays away from IDLE at the start of
    the following passes. *)
Theorem cry_rule_once_per_swing :
  (forall (v : Level) (s : State),
      cradleState s <> IDLE -> handleCry v s = s)
  /\ (forall (inp : TickInput) (s : State),
        samples_ok inp s = true ->
        in_sound inp = LOW ->
        cradleState s = IDLE ->
        let s0 := before_cry inp s in
        let s1 := handleCry (in_sound inp) s0 in
        cradleState s1 = SWINGING_FORWARD
        /\ swingCycles s1 = 3
        /\ (isBuzzerActive s = false ->
            buzzer_fields s1 = (true, CRY_ALERT, 6, millis s0))
        /\ (isBuzzerActive s = true -> buzzer_fields s1 = buzzer_fields s)
        /\ cry_sends s1 = S (cry_sends s)
        /\ cry_sends (loop inp s) = S (cry_sends s)
        /\ (forall rest : list TickInput,
              busy_throughout rest (loop inp s) = true ->
              cry_sends (run rest (loop inp s)) = S (cry_sends s))).
Proof.
  split; [exact handleCry_busy|].
  intros inp s Hok Hlow Hidle s0 s1. subst s1 s0.
  destruct (before_cry_fields inp s) as (Fc & Fb & Fs).
  destruct (cradle_fields_inv _ _ Fc) as (Ec & _).
  assert (Eb : isBuzzerActive (before_cry inp s) = isBuzzerActive s)
    by (unfold buzzer_fields in Fb; injection Fb; auto).
  assert (Hi0 : cradleState (before_cry inp s) = IDLE)
    by (rewrite Ec; exact Hidle).
  rewrite Hlow.
  destruct (handleCry_fires _ Hi0) as (H1 & H2 & H3 & H4 & H5).
  assert (L : cry_sends (loop inp s) = S (cry_sends s)).
  { rewrite (loop_valid _ _ Hok), cry_sends_advance, cry_sends_updateLCD,
      cry_sends_handleUrine, Hlow, H3, Fs. reflexivity. }
  repeat split; auto.
  - intros Ha. apply H4. rewrite Eb. exact Ha.
  - intros Ha. rewrite H5 by (rewrite Eb; exact Ha). exact Fb.
  - rewrite H3, Fs. reflexivity.
  - intros rest Hb. rewrite cry_sends_run_busy by exact Hb. exact L.
Qed.

Lemma cry_rule_once_per_swing_witness :
  cry_sends (run (repeat crying 300) (loop crying boot)) = 1%nat.
Proof.
  destruct (proj2 cry_rule_once_per_swing crying boot)
    as (_ & _ & _ & _ & _ & _ & H);
    [vm_compute; reflexivity | reflexivity | reflexivity |].
  apply (H (repeat crying 300)). vm_compute. reflexivity.
Defined.

(** C2 as stated fails: with the cry signal LOW on every one of 368
    consecutive passes, the cradle has finished its three cycles and is IDLE
    again at the last pass, and the crying message is sent a second time.
    (The rule also arms the buzzer with a beep count of 6, not 3.) *)
Lemma cry_alert_repeats :
  Forall (fun inp => in_sound inp = LOW) (repeat crying 368)
  /\ cry_sends (run (repeat crying 367) boot) = 1%nat
  /\ cradleState (run (repeat crying 367) boot) = IDLE
  /\ cry_sends (run (repeat crying 368) boot) = 2%nat
  /\ cry_sends (run (repeat crying 368) boot) <> 1%nat
  /\ beepCount (handleCry LOW boot) = 6.
Proof.
  split.
  - apply Forall_forall. intros x Hx. apply repeat_spec in Hx.
    rewrite Hx. reflexivity.
  - vm_compute. repeat split. discriminate.
Qed.

(** *** Buzzer pattern *)

Lemma manageBuzzer_inactive t s :
  isBuzzerActive s = false -> manageBuzzer t s = s.
Proof. intros H. unfold manageBuzzer. rewrite H. reflexivity. Qed.

(** The pass that ends the last cycle of a cry pattern writes the pin HIGH
    while it takes the counter to zero; the pattern is still active, and only
    the following pass writes LOW and ends it. *)
Lemma last_cycle_ends_high t s :
  isBuzzerActive s = true -> buzzerMode s = CRY_ALERT -> beepCount s = 2 ->
  400 <= elapsed t (buzzerPatternStartTime s) ->
  elapsed t (buzzerPatternStartTime s) mod 400 < 200 ->
  buzzerPin (manageBuzzer t s) = HIGH
  /\ beepCount (manageBuzzer t s) = 0
  /\ isBuzzerActive (manageBuzzer t s) = true
  /\ forall t', buzzerPin (manageBuzzer t' (manageBuzzer t s)) = LOW
                /\ isBuzzerActive (manageBuzzer t' (manageBuzzer t s)) = false.
Proof.
  intros Ha Hm Hc He Hr.
  assert (E : manageBuzzer t s
              = set_buzzerPatternStartTime t
                  (set_beepCount 0 (digitalWrite BUZZER_PIN HIGH s))).
  { unfold manageBuzzer. rewrite Ha, Hm, Hc. cbn [negb BuzzerMode_eqb].
    change (200 + 200) with 400. change (0 <? 2) with true. cbv iota.
    replace (elapsed t (buzzerPatternStartTime s) mod 400 <? 200) with true
      by (symmetry; apply Z.ltb_lt; exact Hr).
    replace (400 <=? elapsed t (buzzerPatternStartTime s)) with true
      by (symmetry; apply Z.leb_le; exact He).
    cbv zeta. open_state s. cbn in Hc. subst bcnt. reflexivity. }
  rewrite E. open_state s. cbn in Ha. subst bact.
  repeat split.
Qed.

(** C4 on the code.  A cry pattern started on an idle buzzer at the instant
    6500 ms and advanced once per millisecond drives the pin through four
    ON-pulses, not three: three of 200 ms separated by 200 ms gaps, and a
    fourth at 7700 ms, written by the pass that ends the third cycle, that
    lasts until the next pass ends the pattern.  After that the buzzer stays
    silent. *)
Theorem cry_pattern_pulses :
  let s := buzz (every_ms 6500 1202) (startBuzzer CRY_ALERT 3 boot) in
  buzzer_pulses s
  = [(6500, 6700); (6900, 7100); (7300, 7500); (7700, 7701)]
  /\ isBuzzerActive s = false /\ buzzerMode s = OFF /\ buzzerPin s = LOW
  /\ buzzer_pulses (buzz (every_ms 6500 3000) (startBuzzer CRY_ALERT 3 boot))
     = buzzer_pulses s.
Proof. vm_compute. repeat split. Qed.

(** *** Diaper alert *)

Lemma manageDiaperAlertMessage_active t s :
  isDiaperAlertActive s = true ->
  isDiaperAlertActive (manageDiaperAlertMessage t s)
  = negb (5000 <? elapsed t (diaperAlertStartTime s)).
Proof.
  intros H. unfold manageDiaperAlertMessage. rewrite H. simpl andb.
  destruct (5000 <? elapsed t (diaperAlertStartTime s)); auto.
Qed.

Lemma handleUrine_active v s :
  isDiaperAlertActive s = true -> handleUrine v s = s.
Proof.
  intros H. unfold handleUrine. rewrite H, andb_false_r. reflexivity.
Qed.

(** The instant the rule records is read from the clock after the instant
    of the pass: whenever the clock has moved in between, the 32-bit
    difference taken by the timeout at the end of the same pass wraps around
    and the alert is cleared at once. *)
Lemma alert_cleared_in_same_pass now start s :
  0 <= now < start -> start < ULONG_MOD - 5000 ->
  isDiaperAlertActive s = true -> diaperAlertStartTime s = start ->
  isDiaperAlertActive (manageDiaperAlertMessage now s) = false.
Proof.
  intros Hn Hs Ha Hd. rewrite manageDiaperAlertMessage_active by exact Ha.
  rewrite Hd. unfold elapsed, ULONG_MOD in *.
  replace ((now - start) mod 2 ^ 32) with (now - start + 2 ^ 32).
  - apply negb_false_iff, Z.ltb_lt. lia.
  - apply Z.mod_unique with (q := -1); lia.
Qed.

(** C5 on the code.  With the wetness reading at 400 on every pass, the
    wetness rule fires on two consecutive passes 2100 ms apart.  In the first
    run the baby also cries in the first pass, so that the crying message is
    sent (2100 ms of delays) before the wetness rule records its start
    instant; in the second run the sensor reads of the first pass take one
    millisecond.  In both the alert is already inactive when the first pass
    ends. *)
Theorem wet_alert_refires_early :
  wet_firings (trace (run [crying_and_wet; wet_at_once] boot))
  = [9100; 11200]
  /\ diaperAlertStartTime (run [crying_and_wet] boot) = 9100
  /\ isDiaperAlertActive (run [crying_and_wet] boot) = false
  /\ wet_sends (run [crying_and_wet; wet_at_once] boot) = 2%nat
  /\ wet_firings (trace (run [wet_slow_read; wet_at_once] boot))
     = [7001; 9101]
  /\ diaperAlertStartTime (run [wet_slow_read] boot) = 7001
  /\ isDiaperAlertActive (run [wet_slow_read] boot) = false
  /\ wet_sends (run [wet_slow_read; wet_at_once] boot) = 2%nat.
Proof. vm_compute. repeat split. Qed.

(** *** The wetness rule inside a pass *)

Lemma diaper_fields_handleTemperature x s :
  diaper_fields (handleTemperature x s) = diaper_fields s.
Proof. frame. Qed.

Lemma diaper_fields_handleCry v s :
  diaper_fields (handleCry v s) = diaper_fields s.
Proof. frame. Qed.

Lemma diaper_fields_updateLCD x s :
  diaper_fields (updateLCD x s) = diaper_fields s.
Proof. frame. Qed.

Lemma diaper_fields_manageCradleSwing t s :
  diaper_fields (manageCradleSwing t s) = diaper_fields s.
Proof. frame. Qed.

Lemma diaper_fields_manageBuzzer t s :
  diaper_fields (manageBuzzer t s) = diaper_fields s.
Proof. frame. Qed.

Lemma wet_sends_handleTemperature x s :
  wet_sends (handleTemperature x s) = wet_sends s.
Proof. frame. Qed.

Lemma wet_sends_handleCry v s :
  wet_sends (handleCry v s) = wet_sends s.
Proof. frame. Qed.

Lemma wet_sends_updateLCD x s :
  wet_sends (updateLCD x s) = wet_sends s.
Proof. frame. Qed.

Lemma wet_sends_advance t s : wet_sends (advance t s) = wet_sends s.
Proof.
  unfold advance.
  assert (A : forall u, wet_sends (manageDiaperAlertMessage t u)
                        = wet_sends u) by (clear; frame).
  assert (B : forall u, wet_sends (manageBuzzer t u) = wet_sends u)
    by (clear; frame).
  assert (C : forall u, wet_sends (manageCradleSwing t u) = wet_sends u)
    by (clear; frame).
  rewrite A, B, C. reflexivity.
Qed.

(** The cry rule either leaves the clock alone or blocks for the 2100 ms of
    one message. *)
Lemma clock_handleCry v s :
  clock (handleCry v s) = clock s \/ clock (handleCry v s) = clock s + 2100.
Proof. frame; [right | right | left]; lia. Qed.

Lemma handleUrine_fires v s :
  v < WETNESS_THRESHOLD -> isDiaperAlertActive s = false ->
  diaper_fields (handleUrine v s) = (true, millis s)
  /\ wet_sends (handleUrine v s) = S (wet_sends s).
Proof.
  intros Hv Ha. apply Z.ltb_lt in Hv. unfold handleUrine.
  rewrite Hv, Ha. cbn [andb negb]. clear Hv. open_state s.
  cbn [isDiaperAlertActive] in Ha. subst dact.
  enter; repeat (split_if; cbv beta iota zeta); sketch; split; reflexivity.
Qed.

(** At the end of the pass the timeout compares the instant of the pass with
    a start instant that lies [d] ms after it. *)
Lemma elapsed_backwards (T d : Z) :
  0 < d < ULONG_MOD - 5000 ->
  5000 < elapsed (T mod ULONG_MOD) ((T + d) mod ULONG_MOD).
Proof.
  intros Hd. unfold elapsed. rewrite <- Zminus_mod.
  replace (T - (T + d)) with (- d) by lia.
  unfold ULONG_MOD in *.
  replace ((- d) mod 2 ^ 32) with (2 ^ 32 - d);
    [lia | apply Z.mod_unique with (q := -1); lia].
Qed.

(** The defect behind C5, for every pass: when the wetness rule fires in a
    pass during which the clock has moved before the rule runs (here: the
    sensor reads took time), the alert it raises is cleared again by the
    timeout at the end of the same pass, so the rule is free to fire on the
    next sampling pass. *)
Lemma wetness_alert_cleared_at_once inp s :
  samples_ok inp s = true ->
  in_soil inp < WETNESS_THRESHOLD ->
  isDiaperAlertActive s = false ->
  0 < in_read inp < ULONG_MOD - 7100 ->
  isDiaperAlertActive (loop inp s) = false
  /\ wet_sends (loop inp s) = S (wet_sends s).
Proof.
  intros Hok Hv Ha Hr.
  rewrite (loop_valid _ _ Hok).
  set (s2 := handleCry (in_sound inp) (before_cry inp s)).
  assert (D2 : diaper_fields s2 = diaper_fields s).
  { unfold s2, before_cry.
    rewrite diaper_fields_handleCry, diaper_fields_handleTemperature.
    reflexivity. }
  assert (W2 : wet_sends s2 = wet_sends s).
  { unfold s2, before_cry.
    rewrite wet_sends_handleCry, wet_sends_handleTemperature. reflexivity. }
  assert (A2 : isDiaperAlertActive s2 = false)
    by (unfold diaper_fields in D2; injection D2 as E _; rewrite E; exact Ha).
  assert (C2 : exists d, 0 < d < ULONG_MOD - 5000
                         /\ clock s2 = clock s + in_idle inp + d).
  { assert (C0 : clock (before_cry inp s)
                 = clock s + in_idle inp + in_read inp).
    { unfold before_cry.
      assert (K : forall x u, clock (handleTemperature x u) = clock u)
        by (clear; frame).
      rewrite K. reflexivity. }
    unfold s2.
    destruct (clock_handleCry (in_sound inp) (before_cry inp s)) as [E|E];
      rewrite E, C0.
    - exists (in_read inp). split; lia.
    - exists (in_read inp + 2100). split; lia. }
  destruct C2 as (d & Hd & Hc).
  destruct (handleUrine_fires (in_soil inp) s2 Hv A2) as (F & W).
  split.
  - unfold advance.
    set (s3 := updateLCD (in_temperature inp) (handleUrine (in_soil inp) s2)).
    assert (D3 : diaper_fields s3 = (true, millis s2))
      by (unfold s3; rewrite diaper_fields_updateLCD; exact F).
    set (s4 := manageBuzzer (loop_time inp s)
                 (manageCradleSwing (loop_time inp s) s3)).
    assert (D4 : diaper_fields s4 = (true, millis s2)).
    { unfold s4.
      rewrite diaper_fields_manageBuzzer, diaper_fields_manageCradleSwing.
      exact D3. }
    unfold diaper_fields in D4. injection D4 as E1 E2.
    rewrite manageDiaperAlertMessage_active by exact E1.
    rewrite E2. apply negb_false_iff, Z.ltb_lt.
    unfold millis at 1. rewrite Hc.
    unfold loop_time, millis, delay. cbn [clock set_clock].
    apply elapsed_backwards. exact Hd.
  - rewrite wet_sends_advance, wet_sends_updateLCD, W, W2. reflexivity.
Qed.
(** *** More on the cradle *)

Lemma cradle_inv_ext s s' :
  cradle_fields s' = cradle_fields s -> cradle_inv s -> cradle_inv s'.
Proof.
  intros E H. apply cradle_fields_inv in E.
  destruct E as (E1 & E2 & E3 & _).
  unfold cradle_inv. rewrite E1, E2, E3. exact H.
Qed.

Lemma cradle_inv_manageCradleSwing t s :
  cradle_inv s -> cradle_inv (manageCradleSwing t s).
Proof.
  unfold cradle_inv. intros H.
  branches; sketch in *; constants; subst; zbool;
    rewrite ?wrap_int_small in * by (unfold INT_MAX; lia);
    zbool; try discriminate; try assumption; try lia.
Qed.

Lemma cradle_inv_handleCry v s :
  cradle_inv s -> cradle_inv (handleCry v s).
Proof.
  unfold cradle_inv. intros H.
  branches; sketch in *; zbool; subst; try discriminate; try assumption;
    try lia.
Qed.

Lemma cradle_inv_rules inp s :
  cradle_inv s -> cradle_inv (rules inp s).
Proof.
  intros H. unfold rules.
  eapply cradle_inv_ext; [apply cradle_fields_updateLCD|].
  eapply cradle_inv_ext; [apply cradle_fields_handleUrine|].
  apply cradle_inv_handleCry.
  eapply cradle_inv_ext; [apply cradle_fields_handleTemperature|exact H].
Qed.

Lemma cradle_inv_loop inp s :
  cradle_inv s -> cradle_inv (loop inp s).
Proof.
  intros H. eapply cradle_inv_ext; [apply loop_cradle|].
  apply cradle_inv_manageCradleSwing. unfold sample.
  destruct (sample_due _ _); [|exact H]. cbv zeta.
  destruct (negb (is_nan (in_temperature inp))); [|exact H].
  apply cradle_inv_rules. exact H.
Qed.

Lemma cradle_inv_run inps :
  forall s, cradle_inv s -> cradle_inv (run inps s).
Proof.
  induction inps as [|inp rest IH]; intros s H; simpl; auto.
  apply IH, cradle_inv_loop, H.
Qed.

Lemma cradle_inv_after_setup t0 : cradle_inv (after_setup t0).
Proof. unfold cradle_inv, after_setup. simpl. auto. Qed.

(** X1. Whenever the cradle is IDLE in a state reachable from boot, the servo
    is at the rest position: the cradle is never left standing off-centre. *)
Theorem idle_cradle_is_at_rest :
  forall (t0 : Z) (inps : list TickInput),
    cradleState (run inps (after_setup t0)) = IDLE ->
    servoPos (run inps (after_setup t0)) = CRADLE_POS_REST.
Proof.
  intros t0 inps Hi.
  pose proof (cradle_inv_run inps _ (cradle_inv_after_setup t0)) as H.
  unfold cradle_inv in H. rewrite Hi in H. exact (proj1 H).
Qed.

Lemma idle_cradle_is_at_rest_witness :
  servoPos (run (repeat crying 367) boot) = CRADLE_POS_REST.
Proof.
  apply (idle_cradle_is_at_rest 6500 (repeat crying 367)).
  vm_compute. reflexivity.
Defined.

(** X2. In every state reachable from boot the cycle counter is between 0
    and 3: at least 1 while the cradle sweeps forward or back, and 0 while
    it returns or is IDLE.  The decrement never takes it below zero. *)
Theorem swing_cycles_bounded :
  forall (t0 : Z) (inps : list TickInput),
    let s := run inps (after_setup t0) in
    0 <= swingCycles s <= 3
    /\ (1 <= swingCycles s <->
        (cradleState s = SWINGING_FORWARD \/ cradleState s = SWINGING_BACK)).
Proof.
  intros t0 inps s.
  pose proof (cradle_inv_run inps _ (cradle_inv_after_setup t0)) as H.
  fold s in H. unfold cradle_inv in H.
  destruct (cradleState s); split; try lia; split; intros K;
    try (destruct K; discriminate); try lia; auto.
Qed.

(** *** The way back to rest *)

Lemma swing_idle ts :
  forall s, cradleState s = IDLE -> swing ts s = s.
Proof.
  induction ts as [|t ts IH]; intros s H; simpl; auto.
  rewrite manageCradleSwing_not_due; [apply IH, H|].
  unfold swing_due. rewrite H. reflexivity.
Qed.

Lemma step_returning t s :
  cradleState s = RETURNING ->
  CRADLE_SWING_SPEED <= elapsed t (lastSwingTime s) ->
  cradle_fields (manageCradleSwing t s)
  = if servoPos s <? CRADLE_POS_REST
    then (RETURNING, swingCycles s, servoPos s + 1, t)
    else if CRADLE_POS_REST <? servoPos s
    then (RETURNING, swingCycles s, servoPos s - 1, t)
    else (IDLE, swingCycles s, servoPos s, t).
Proof.
  intros Hc Hd. branches; sketch in *; constants; subst;
    cbn [CradleState_eqb orb] in *; zbool;
    try discriminate; try reflexivity; lia.
Qed.

Lemma return_up (n : nat) :
  forall ts s,
    cradleState s = RETURNING ->
    servoPos s = CRADLE_POS_REST - Z.of_nat n ->
    due_chain (lastSwingTime s) ts = true ->
    (n < List.length ts)%nat ->
    cradle_fields (swing ts s)
    = (IDLE, swingCycles s, CRADLE_POS_REST, nth n ts 0).
Proof.
  induction n as [|n IH]; intros ts s Hc Hp Hd Hl;
    (destruct ts as [|t ts]; [simpl in Hl; lia|]);
    simpl in Hd; apply andb_true_iff in Hd; destruct Hd as [Hd1 Hd2];
    apply Z.leb_le in Hd1;
    pose proof (step_returning t s Hc Hd1) as E; simpl swing.
  - replace (servoPos s <? CRADLE_POS_REST) with false in E
      by (symmetry; apply Z.ltb_ge; lia).
    replace (CRADLE_POS_REST <? servoPos s) with false in E
      by (symmetry; apply Z.ltb_ge; lia).
    rewrite swing_idle by (apply cradle_fields_eq in E; tauto).
    rewrite E. simpl nth. repeat f_equal. lia.
  - replace (servoPos s <? CRADLE_POS_REST) with true in E
      by (symmetry; apply Z.ltb_lt; lia).
    apply cradle_fields_eq in E. destruct E as (E1 & E2 & E3 & E4).
    rewrite (IH ts (manageCradleSwing t s));
      [rewrite E2; reflexivity | exact E1 | lia | rewrite E4; exact Hd2
      | simpl in Hl; lia].
Qed.

Lemma return_down (n : nat) :
  forall ts s,
    cradleState s = RETURNING ->
    servoPos s = CRADLE_POS_REST + Z.of_nat n ->
    due_chain (lastSwingTime s) ts = true ->
    (n < List.length ts)%nat ->
    cradle_fields (swing ts s)
    = (IDLE, swingCycles s, CRADLE_POS_REST, nth n ts 0).
Proof.
  induction n as [|n IH]; intros ts s Hc Hp Hd Hl;
    (destruct ts as [|t ts]; [simpl in Hl; lia|]);
    simpl in Hd; apply andb_true_iff in Hd; destruct Hd as [Hd1 Hd2];
    apply Z.leb_le in Hd1;
    pose proof (step_returning t s Hc Hd1) as E; simpl swing.
  - replace (servoPos s <? CRADLE_POS_REST) with false in E
      by (symmetry; apply Z.ltb_ge; lia).
    replace (CRADLE_POS_REST <? servoPos s) with false in E
      by (symmetry; apply Z.ltb_ge; lia).
    rewrite swing_idle by (apply cradle_fields_eq in E; tauto).
    rewrite E. simpl nth. repeat f_equal. lia.
  - replace (servoPos s <? CRADLE_POS_REST) with false in E
      by (symmetry; apply Z.ltb_ge; lia).
    replace (CRADLE_POS_REST <? servoPos s) with true in E
      by (symmetry; apply Z.ltb_lt; lia).
    apply cradle_fields_eq in E. destruct E as (E1 & E2 & E3 & E4).
    rewrite (IH ts (manageCradleSwing t s));
      [rewrite E2; reflexivity | exact E1 | lia | rewrite E4; exact Hd2
      | simpl in Hl; lia].
Qed.

Lemma return_fields s ts :
  cradleState s = RETURNING ->
  due_chain (lastSwingTime s) ts = true ->
  Z.abs (servoPos s - CRADLE_POS_REST) < Z.of_nat (List.length ts) ->
  cradle_fields (swing ts s)
  = (IDLE, swingCycles s, CRADLE_POS_REST,
     nth (Z.to_nat (Z.abs (servoPos s - CRADLE_POS_REST))) ts 0).
Proof.
  intros Hc Hd Hl.
  destruct (Z.le_gt_cases (servoPos s) CRADLE_POS_REST) as [Hle|Hgt].
  - replace (Z.abs (servoPos s - CRADLE_POS_REST))
      with (CRADLE_POS_REST - servoPos s) in * by lia.
    apply return_up; auto; lia.
  - replace (Z.abs (servoPos s - CRADLE_POS_REST))
      with (servoPos s - CRADLE_POS_REST) in * by lia.
    apply return_down; auto; lia.
Qed.

(** X3. The way back.  A cradle in RETURNING at any servo angle [a] between
    0 and 180, advanced at due instants, is IDLE at the rest position after
    |a - 60| + 1 steps and stays there on every later step; the step that
    ends the return is the last one to touch the cradle. *)
Theorem return_to_rest :
  forall (s : State) (ts : list Z),
    cradleState s = RETURNING ->
    0 <= servoPos s <= 180 ->
    due_chain (lastSwingTime s) ts = true ->
    Z.abs (servoPos s - CRADLE_POS_REST) < Z.of_nat (List.length ts) ->
    cradleState (swing ts s) = IDLE
    /\ servoPos (swing ts s) = CRADLE_POS_REST
    /\ swingCycles (swing ts s) = swingCycles s
    /\ lastSwingTime (swing ts s)
       = nth (Z.to_nat (Z.abs (servoPos s - CRADLE_POS_REST))) ts 0.
Proof.
  intros s ts Hc Hr Hd Hl.
  pose proof (return_fields s ts Hc Hd Hl) as E.
  apply cradle_fields_eq in E. tauto.
Qed.

Lemma return_to_rest_witness :
  cradleState (swing (every_30ms 6500 40) (returning_from 30)) = IDLE
  /\ servoPos (swing (every_30ms 6500 40) (returning_from 30))
     = CRADLE_POS_REST
  /\ swingCycles (swing (every_30ms 6500 40) (returning_from 30))
     = swingCycles (returning_from 30)
  /\ lastSwingTime (swing (every_30ms 6500 40) (returning_from 30))
     = nth (Z.to_nat (Z.abs (servoPos (returning_from 30) - CRADLE_POS_REST)))
         (every_30ms 6500 40) 0.
Proof.
  apply (return_to_rest (returning_from 30) (every_30ms 6500 40));
    vm_compute; try reflexivity; split; discriminate.
Defined.

(** *** From the trigger back to rest *)

Lemma swing_app ta :
  forall tb s, swing (ta ++ tb) s = swing tb (swing ta s).
Proof. induction ta as [|t ta IH]; intros tb s; simpl; auto. Qed.

Lemma due_chain_app_l ta :
  forall tb last, due_chain last (ta ++ tb) = true -> due_chain last ta = true.
Proof.
  induction ta as [|t ta IH]; intros tb last H; simpl in *; auto.
  apply andb_true_iff in H. destruct H as [H1 H2].
  rewrite H1. simpl. eapply IH, H2.
Qed.

(** Where [swing_until_returning] stops is a state of the plain run, and the
    instants not yet used are still due. *)
Lemma swing_until_returning_split ta :
  forall tb s lg r,
    due_chain (lastSwingTime s) (ta ++ tb) = true ->
    cradleState s <> IDLE ->
    swing_until_returning ta s lg = Some r ->
    exists t1 t2,
      ta = t1 ++ t2 /\ swing t1 s = fst r
      /\ due_chain (lastSwingTime (fst r)) (t2 ++ tb) = true.
Proof.
  induction ta as [|t ta IH]; intros tb s lg r Hd Hn Hu.
  - simpl in Hu. destruct (cradleState s); try discriminate.
    injection Hu as <-. exists [], []. auto.
  - destruct (CradleState_eqb (cradleState s) RETURNING) eqn:Er.
    + apply CradleState_eqb_eq in Er.
      rewrite swing_until_returning_done in Hu by exact Er.
      injection Hu as <-. exists [], (t :: ta). auto.
    + assert (Hr : cradleState s <> RETURNING).
      { intros E. rewrite E in Er. discriminate. }
      rewrite swing_until_returning_step in Hu by exact Hr.
      simpl in Hd. apply andb_true_iff in Hd. destruct Hd as [Hd1 Hd2].
      assert (Hdue : swing_due t s = true).
      { unfold swing_due. rewrite Hd1, andb_true_r.
        destruct (CradleState_eqb (cradleState s) IDLE) eqn:Ei; auto.
        apply CradleState_eqb_eq in Ei. contradiction. }
      destruct (IH tb (manageCradleSwing t s)
                  (lg ++ turn s (manageCradleSwing t s)) r)
        as (t1 & t2 & A & B & C).
      * rewrite manageCradleSwing_due_time by exact Hdue. exact Hd2.
      * intros Ei.
        destruct (proj1 (manageCradleSwing_idle_iff t s) (conj Hn Ei))
          as (K & _). contradiction.
      * exact Hu.
      * exists (t :: t1), t2. rewrite A. simpl. auto.
Qed.

Lemma full_swing_fields (n : nat) s ts :
  cradleState s = SWINGING_FORWARD ->
  swingCycles s = Z.of_nat (S n) ->
  swingCycles s <= INT_MAX ->
  angle_in_range s ->
  due_chain (lastSwingTime s) ts = true ->
  swing_steps (swingCycles s) (servoPos s) + 31 <= Z.of_nat (List.length ts) ->
  cradleState (swing ts s) = IDLE
  /\ servoPos (swing ts s) = CRADLE_POS_REST
  /\ swingCycles (swing ts s) = 0.
Proof.
  intros Hc Hn Hm Ha Hd Hl.
  set (K := Z.to_nat (swing_steps (swingCycles s) (servoPos s))).
  assert (Hk : 0 <= swing_steps (swingCycles s) (servoPos s))
    by (unfold swing_steps, angle_in_range in *; constants; lia).
  assert (Hlen : List.length (firstn K ts) = K)
    by (apply firstn_length_le; unfold K; lia).
  rewrite <- (firstn_skipn K ts) in Hd.
  destruct (swing_cycles n (firstn K ts) s [])
    as (s' & U & R1 & R2 & R3); auto.
  { eapply due_chain_app_l, Hd. }
  { rewrite Hlen. unfold K. lia. }
  destruct (swing_until_returning_split _ _ _ _ _ Hd
              ltac:(rewrite Hc; discriminate) U)
    as (t1 & t2 & A & B & C).
  cbn [fst] in B, C.
  rewrite <- (firstn_skipn K ts), A, <- app_assoc, swing_app, B.
  assert (E : cradle_fields (swing (t2 ++ skipn K ts) s')
              = (IDLE, swingCycles s', CRADLE_POS_REST,
                 nth (Z.to_nat (Z.abs (servoPos s' - CRADLE_POS_REST)))
                   (t2 ++ skipn K ts) 0)).
  { apply return_fields; auto. rewrite R2. constants.
    rewrite length_app, length_skipn. unfold K. simpl Z.abs. lia. }
  apply cradle_fields_eq in E. destruct E as (E1 & E2 & E3 & _).
  rewrite E1, E2, E3, R3. auto.
Qed.

(** X4. The whole swing.  A cradle in SWINGING_FORWARD with N cycles
    (1 <= N <= 32767) and its angle [a] within [30, 90], advanced at due
    instants, is IDLE at the rest position with no cycle left after
    122 N + 30 - a + 31 steps, and stays so on later steps.  For the cry
    rule (N = 3, a = 60) these are 367 steps, at least 11 seconds. *)
Theorem full_swing_ends_idle :
  forall (N : Z) (s : State) (ts : list Z),
    1 <= N <= INT_MAX ->
    cradleState s = SWINGING_FORWARD ->
    swingCycles s = N ->
    angle_in_range s ->
    due_chain (lastSwingTime s) ts = true ->
    swing_steps N (servoPos s) + 31 <= Z.of_nat (List.length ts) ->
    cradleState (swing ts s) = IDLE
    /\ servoPos (swing ts s) = CRADLE_POS_REST
    /\ swingCycles (swing ts s) = 0.
Proof.
  intros N s ts HN Hc Hn Ha Hd Hl.
  destruct (Z.to_nat N) as [|n] eqn:En; [lia|].
  apply (full_swing_fields n); auto; try lia.
  rewrite Hn. exact Hl.
Qed.

Lemma full_swing_ends_idle_witness :
  cradleState (swing (every_30ms 6500 367) (triggered 3)) = IDLE
  /\ servoPos (swing (every_30ms 6500 367) (triggered 3)) = CRADLE_POS_REST
  /\ swingCycles (swing (every_30ms 6500 367) (triggered 3)) = 0.
Proof.
  apply (full_swing_ends_idle 3 (triggered 3) (every_30ms 6500 367));
    try reflexivity; vm_compute; try split; congruence.
Defined.

(** *** Motion rate *)

Lemma servo_step t s :
  (servoPos (manageCradleSwing t s) = servoPos s
   /\ servo_writes (trace (manageCradleSwing t s)) = servo_writes (trace s))
  \/ (swing_due t s = true
      /\ Z.abs (servoPos (manageCradleSwing t s) - servoPos s) = 1
      /\ servo_writes (trace (manageCradleSwing t s))
         = servoPos (manageCradleSwing t s) :: servo_writes (trace s)).
Proof.
  unfold swing_due.
  branches; sketch in *; subst; cbn [CradleState_eqb orb andb negb] in *;
    zbool;
    first [ left; split; reflexivity
          | right; repeat split;
            [apply Z.leb_le; assumption | lia] ].
Qed.

Lemma servo_writes_sample inp t s :
  servo_writes (trace (sample inp t s)) = servo_writes (trace s).
Proof.
  unfold sample. destruct (sample_due t s); [|reflexivity]. cbv zeta.
  destruct (negb (is_nan (in_temperature inp))); [|reflexivity].
  unfold rules.
  assert (A : forall x u, servo_writes (trace (updateLCD x u))
                          = servo_writes (trace u)) by (clear; frame).
  assert (B : forall v u, servo_writes (trace (handleUrine v u))
                          = servo_writes (trace u)) by (clear; frame).
  assert (C : forall v u, servo_writes (trace (handleCry v u))
                          = servo_writes (trace u)) by (clear; frame).
  assert (D : forall x u, servo_writes (trace (handleTemperature x u))
                          = servo_writes (trace u)) by (clear; frame).
  rewrite A, B, C, D. reflexivity.
Qed.

Lemma servo_writes_advance t s :
  servo_writes (trace (advance t s))
  = servo_writes (trace (manageCradleSwing t s)).
Proof.
  unfold advance.
  assert (A : forall u, servo_writes (trace (manageDiaperAlertMessage t u))
                        = servo_writes (trace u)) by (clear; frame).
  assert (B : forall u, servo_writes (trace (manageBuzzer t u))
                        = servo_writes (trace u)) by (clear; frame).
  rewrite A, B. reflexivity.
Qed.

(** X5. Motion rate.  One pass of [loop()] either leaves the servo where it
    is, without writing to it, or moves it by exactly one degree with exactly
    one write; it moves only when at least 30 ms (in 32-bit arithmetic) have
    passed since the previous cradle step, and then records the instant of
    the pass as the new step time. *)
Theorem servo_moves_one_degree_per_pass :
  forall (inp : TickInput) (s : State),
    (servoPos (loop inp s) = servoPos s
     /\ servo_writes (trace (loop inp s)) = servo_writes (trace s))
    \/ (CRADLE_SWING_SPEED <= elapsed (loop_time inp s) (lastSwingTime s)
        /\ Z.abs (servoPos (loop inp s) - servoPos s) = 1
        /\ servo_writes (trace (loop inp s))
           = servoPos (loop inp s) :: servo_writes (trace s)
        /\ lastSwingTime (loop inp s) = loop_time inp s).
Proof.
  intros inp s.
  set (t := loop_time inp s).
  set (s1 := sample inp t (delay (in_idle inp) s)).
  destruct (cradle_fields_inv _ _ (loop_cradle inp s)) as (_ & _ & Ep & Et).
  fold t in Ep, Et. fold s1 in Ep, Et.
  assert (Ew : servo_writes (trace (loop inp s))
               = servo_writes (trace (manageCradleSwing t s1)))
    by (unfold loop; apply servo_writes_advance).
  destruct (sample_servo inp t (delay (in_idle inp) s)) as [P1 L1].
  fold s1 in P1, L1. cbn in P1, L1.
  assert (W1 : servo_writes (trace s1) = servo_writes (trace s))
    by (unfold s1; rewrite servo_writes_sample; reflexivity).
  rewrite Ep, Et, Ew.
  destruct (servo_step t s1) as [[A B]|(A & B & C)].
  - left. rewrite A, B, P1, W1. auto.
  - right. rewrite C, W1, <- P1.
    unfold swing_due in A. apply andb_true_iff in A. destruct A as [A1 A2].
    apply Z.leb_le in A2. rewrite L1 in A2.
    repeat split; auto.
    apply manageCradleSwing_due_time. unfold swing_due.
    rewrite A1, L1. simpl. apply Z.leb_le. exact A2.
Qed.

(** X6. Rate clamp.  After a cradle step taken at instant [t], every call of
    [manageCradleSwing] at an instant less than 30 ms later (in 32-bit
    arithmetic) changes nothing, however often [loop()] runs. *)
Theorem swing_step_is_rate_limited :
  forall (t t' : Z) (s : State),
    swing_due t s = true ->
    elapsed t' t < CRADLE_SWING_SPEED ->
    manageCradleSwing t' (manageCradleSwing t s) = manageCradleSwing t s.
Proof.
  intros t t' s Hd Hl. apply manageCradleSwing_not_due.
  unfold swing_due. rewrite manageCradleSwing_due_time by exact Hd.
  replace (CRADLE_SWING_SPEED <=? elapsed t' t) with false
    by (symmetry; apply Z.leb_gt; exact Hl).
  apply andb_false_r.
Qed.

Lemma swing_step_is_rate_limited_witness :
  manageCradleSwing 7029 (manageCradleSwing 7000 (triggered 3))
  = manageCradleSwing 7000 (triggered 3).
Proof.
  apply (swing_step_is_rate_limited 7000 7029 (triggered 3));
    vm_compute; reflexivity.
Defined.

(** *** A silent buzzer *)

Ltac cases_of s :=
  open_state s; enter; repeat (split_if; cbv beta iota zeta); sketch in *.

Lemma silent_inv_ext s s' :
  sound_fields s' = sound_fields s -> silent_inv s -> silent_inv s'.
Proof.
  unfold silent_inv, sound_fields. intros E. injection E as -> ->. auto.
Qed.

Lemma silent_inv_handleCry v s :
  silent_inv s -> silent_inv (handleCry v s).
Proof.
  unfold silent_inv. intros H. revert H.
  cases_of s; intros; try discriminate; auto.
Qed.

Lemma silent_inv_handleUrine v s :
  silent_inv s -> silent_inv (handleUrine v s).
Proof.
  unfold silent_inv. intros H. revert H.
  cases_of s; intros; try discriminate; auto.
Qed.

Lemma silent_inv_manageBuzzer t s :
  silent_inv s -> silent_inv (manageBuzzer t s).
Proof.
  unfold silent_inv. intros H. revert H.
  cases_of s; intros; zbool; subst; try discriminate; auto.
Qed.

Lemma sound_fields_handleTemperature x s :
  sound_fields (handleTemperature x s) = sound_fields s.
Proof. frame. Qed.

Lemma sound_fields_updateLCD x s :
  sound_fields (updateLCD x s) = sound_fields s.
Proof. frame. Qed.

Lemma sound_fields_manageCradleSwing t s :
  sound_fields (manageCradleSwing t s) = sound_fields s.
Proof. frame. Qed.

Lemma sound_fields_manageDiaperAlertMessage t s :
  sound_fields (manageDiaperAlertMessage t s) = sound_fields s.
Proof. frame. Qed.

Lemma silent_inv_loop inp s :
  silent_inv s -> silent_inv (loop inp s).
Proof.
  intros H. unfold loop, advance.
  eapply silent_inv_ext; [apply sound_fields_manageDiaperAlertMessage|].
  apply silent_inv_manageBuzzer.
  eapply silent_inv_ext; [apply sound_fields_manageCradleSwing|].
  unfold sample. destruct (sample_due _ _); [|exact H]. cbv zeta.
  destruct (negb (is_nan (in_temperature inp))); [|exact H].
  unfold rules.
  eapply silent_inv_ext; [apply sound_fields_updateLCD|].
  apply silent_inv_handleUrine, silent_inv_handleCry.
  eapply silent_inv_ext; [apply sound_fields_handleTemperature|exact H].
Qed.

Lemma silent_inv_run inps :
  forall s, silent_inv s -> silent_inv (run inps s).
Proof.
  induction inps as [|inp rest IH]; intros s H; simpl; auto.
  apply IH, silent_inv_loop, H.
Qed.

(** X7. In every state reachable from boot, a buzzer that is not running a
    pattern has its pin LOW: no pass of [loop()] ends a pattern, or leaves
    it ended, with the buzzer sounding. *)
Theorem inactive_buzzer_is_silent :
  forall (t0 : Z) (inps : list TickInput),
    isBuzzerActive (run inps (after_setup t0)) = false ->
    buzzerPin (run inps (after_setup t0)) = LOW.
Proof.
  intros t0 inps. apply (silent_inv_run inps).
  unfold silent_inv, after_setup. reflexivity.
Qed.

Lemma inactive_buzzer_is_silent_witness :
  buzzerPin (run (crying :: repeat (calm 25) 5) boot) = LOW.
Proof.
  apply (inactive_buzzer_is_silent 6500 (crying :: repeat (calm 25) 5)).
  vm_compute. reflexivity.
Defined.

(** *** Sending a message *)

(** What one call of [sendSMS] does: it blocks for 2100 ms, touches nothing
    but the clock and the trace, and hands the modem the command line, the
    body and the submitting byte 26. *)
Lemma sendSMS_effect :
  forall (number message : string) (s : State),
    clock (sendSMS number message s) = clock s + 2100
    /\ set_trace (trace s) (set_clock (clock s) (sendSMS number message s))
       = s
    /\ modem_stream (trace (sendSMS number message s))
       = modem_stream (trace s)
         ++ [GsmPrint (String.append "AT+CMGS=" DQUOTE); GsmPrint number;
             GsmPrintln DQUOTE; GsmPrint message; GsmWrite 26]
    /\ alert_sends (sendSMS number message s) = S (alert_sends s).
Proof.
  intros number message s. open_state s. unfold alert_sends. sketch.
  cbn [modem_stream submitted Z.eqb Pos.eqb].
  split; [lia|]. split; [reflexivity|]. split; [|reflexivity].
  repeat rewrite <- app_assoc. reflexivity.
Qed.

(** *** What a pass costs *)

Lemma cost_handleTemperature x s :
  clock (handleTemperature x s) = clock s
  /\ alert_sends (handleTemperature x s) = alert_sends s.
Proof. frame; split; reflexivity. Qed.

Lemma cost_updateLCD x s :
  clock (updateLCD x s) = clock s
  /\ alert_sends (updateLCD x s) = alert_sends s.
Proof. frame; split; reflexivity. Qed.

Lemma cost_manageCradleSwing t s :
  clock (manageCradleSwing t s) = clock s
  /\ alert_sends (manageCradleSwing t s) = alert_sends s.
Proof. frame; split; reflexivity. Qed.

Lemma cost_manageBuzzer t s :
  clock (manageBuzzer t s) = clock s
  /\ alert_sends (manageBuzzer t s) = alert_sends s.
Proof. frame; split; reflexivity. Qed.

Lemma cost_manageDiaperAlertMessage t s :
  clock (manageDiaperAlertMessage t s) = clock s
  /\ alert_sends (manageDiaperAlertMessage t s) = alert_sends s.
Proof. frame; split; reflexivity. Qed.

Lemma cost_advance t s :
  clock (advance t s) = clock s /\ alert_sends (advance t s) = alert_sends s.
Proof.
  unfold advance.
  destruct (cost_manageDiaperAlertMessage t
              (manageBuzzer t (manageCradleSwing t s))) as [-> ->].
  destruct (cost_manageBuzzer t (manageCradleSwing t s)) as [-> ->].
  apply cost_manageCradleSwing.
Qed.

Lemma cost_handleCry inp s :
  clock (handleCry (in_sound inp) s)
  = clock s + (if cry_fires inp s then 2100 else 0)
  /\ alert_sends (handleCry (in_sound inp) s)
     = (alert_sends s + (if cry_fires inp s then 1 else 0))%nat.
Proof.
  unfold cry_fires, handleCry.
  destruct (Level_eqb (in_sound inp) LOW
            && CradleState_eqb (cradleState s) IDLE).
  - cbv zeta. unfold startBuzzer.
    destruct (isBuzzerActive _); open_state s; unfold alert_sends; sketch;
      cbn [submitted Z.eqb Pos.eqb]; split; lia.
  - split; lia.
Qed.

Lemma cost_handleUrine inp s :
  clock (handleUrine (in_soil inp) s)
  = clock s + (if wet_fires inp s then 2100 else 0)
  /\ alert_sends (handleUrine (in_soil inp) s)
     = (alert_sends s + (if wet_fires inp s then 1 else 0))%nat.
Proof.
  unfold wet_fires, handleUrine.
  destruct ((in_soil inp <? WETNESS_THRESHOLD)
            && negb (isDiaperAlertActive s)).
  - cbv zeta. unfold startBuzzer.
    destruct (isBuzzerActive _); open_state s; unfold alert_sends; sketch;
      cbn [submitted Z.eqb Pos.eqb]; split; lia.
  - split; lia.
Qed.

Lemma cry_fires_before_cry inp s :
  cry_fires inp (before_cry inp s) = cry_fires inp s.
Proof.
  unfold cry_fires.
  destruct (cradle_fields_inv _ _ (proj1 (before_cry_fields inp s)))
    as (-> & _).
  reflexivity.
Qed.

Lemma wet_fires_after_cry inp s :
  wet_fires inp (handleCry (in_sound inp) (before_cry inp s))
  = wet_fires inp s.
Proof.
  unfold wet_fires.
  assert (E : diaper_fields (handleCry (in_sound inp) (before_cry inp s))
              = diaper_fields s).
  { unfold before_cry.
    rewrite diaper_fields_handleCry, diaper_fields_handleTemperature.
    reflexivity. }
  unfold diaper_fields in E. injection E as -> _. reflexivity.
Qed.

(** X9. What a pass costs.  A pass that samples a valid temperature submits
    one message for each of the two rules that fires (the cry rule on the
    cradle state, the wetness rule on the alert state found at the start of
    the pass) and none otherwise; a pass blocks for exactly 2100 ms per
    message submitted, on top of the time the sensor reads take.  Any other
    pass submits nothing. *)
Theorem pass_sends_and_blocks_per_rule :
  forall (inp : TickInput) (s : State),
    let fired :=
      if samples_ok inp s
      then ((if cry_fires inp s then 1 else 0)
            + (if wet_fires inp s then 1 else 0))%nat
      else O in
    alert_sends (loop inp s) = (alert_sends s + fired)%nat
    /\ clock (loop inp s)
       = clock s + in_idle inp
         + (if sample_due (loop_time inp s) s then in_read inp else 0)
         + 2100 * Z.of_nat fired.
Proof.
  intros inp s fired. subst fired.
  destruct (samples_ok inp s) eqn:Hok.
  - rewrite (loop_valid _ _ Hok).
    destruct (samples_ok_split _ _ Hok) as [Hd _].
    replace (sample_due (loop_time inp s) s) with true
      by (symmetry; exact Hd).
    destruct (cost_advance (loop_time inp s)
                (updateLCD (in_temperature inp)
                   (handleUrine (in_soil inp)
                      (handleCry (in_sound inp) (before_cry inp s)))))
      as [-> ->].
    destruct (cost_updateLCD (in_temperature inp)
                (handleUrine (in_soil inp)
                   (handleCry (in_sound inp) (before_cry inp s))))
      as [-> ->].
    destruct (cost_handleUrine inp
                (handleCry (in_sound inp) (before_cry inp s))) as [-> ->].
    destruct (cost_handleCry inp (before_cry inp s)) as [-> ->].
    rewrite wet_fires_after_cry, cry_fires_before_cry.
    unfold before_cry.
    destruct (cost_handleTemperature (in_temperature inp)
                (delay (in_read inp)
                   (set_lastSensorReadTime (loop_time inp s)
                      (delay (in_idle inp) s)))) as [-> ->].
    cbn [clock delay set_clock set_lastSensorReadTime].
    unfold alert_sends at 1.
    cbn [trace delay set_clock set_lastSensorReadTime].
    fold (alert_sends s).
    destruct (cry_fires inp s), (wet_fires inp s); split; lia.
  - unfold loop. fold (loop_time inp s).
    destruct (cost_advance (loop_time inp s)
                (sample inp (loop_time inp s) (delay (in_idle inp) s)))
      as [-> ->].
    unfold samples_ok in Hok. unfold sample.
    change (sample_due (loop_time inp s) (delay (in_idle inp) s))
      with (sample_due (loop_time inp s) s).
    destruct (sample_due (loop_time inp s) s); simpl in Hok.
    + rewrite Hok. cbv zeta. unfold alert_sends.
      cbn [clock trace delay set_clock set_lastSensorReadTime].
      split; lia.
    + unfold alert_sends. cbn [clock trace delay set_clock]. split; lia.
Qed.

(** *** Passes without a valid sample *)

Lemma sample_skipped inp t s :
  sample_due t s && negb (is_nan (in_temperature inp)) = false ->
  sample inp t s
  = if sample_due t s
    then delay (in_read inp) (set_lastSensorReadTime t s)
    else s.
Proof.
  intros H. unfold sample. destruct (sample_due t s); [|reflexivity].
  simpl in H. rewrite H. reflexivity.
Qed.

Lemma manageDiaperAlertMessage_inactive t s :
  isDiaperAlertActive s = false -> manageDiaperAlertMessage t s = s.
Proof. intros H. unfold manageDiaperAlertMessage. rewrite H. reflexivity. Qed.

(** X10. A pass that takes no valid sample (sampling not due, or the
    temperature read is NaN) arms nothing: the fan relay keeps its level and
    gets no command, an IDLE cradle stays IDLE with the servo untouched, an
    inactive diaper alert stays inactive and an inactive buzzer stays fully
    as it is. *)
Theorem pass_without_valid_sample_arms_nothing :
  forall (inp : TickInput) (s : State),
    samples_ok inp s = false ->
    fanRelayPin (loop inp s) = fanRelayPin s
    /\ fan_commands (trace (loop inp s)) = fan_commands (trace s)
    /\ (cradleState s = IDLE -> cradle_fields (loop inp s) = cradle_fields s)
    /\ (isDiaperAlertActive s = false ->
        diaper_fields (loop inp s) = diaper_fields s)
    /\ (isBuzzerActive s = false ->
        buzzer_fields (loop inp s) = buzzer_fields s
        /\ buzzerPin (loop inp s) = buzzerPin s).
Proof.
  intros inp s Hok. unfold loop. fold (loop_time inp s).
  set (t := loop_time inp s).
  assert (E : sample inp t (delay (in_idle inp) s)
              = if sample_due t s
                then delay (in_read inp)
                       (set_lastSensorReadTime t (delay (in_idle inp) s))
                else delay (in_idle inp) s)
    by (rewrite (sample_skipped inp t (delay (in_idle inp) s)) by exact Hok;
        reflexivity).
  set (s1 := sample inp t (delay (in_idle inp) s)) in *.
  assert (F : fanRelayPin s1 = fanRelayPin s
              /\ fan_commands (trace s1) = fan_commands (trace s)
              /\ cradle_fields s1 = cradle_fields s
              /\ diaper_fields s1 = diaper_fields s
              /\ buzzer_fields s1 = buzzer_fields s
              /\ buzzerPin s1 = buzzerPin s)
    by (rewrite E; destruct (sample_due t s); repeat split).
  clearbody s1. destruct F as (F1 & F2 & F3 & F4 & F5 & F6).
  destruct (fan_advance t s1) as [-> ->].
  split; [exact F1|]. split; [exact F2|]. split; [|split].
  - intros Hi. rewrite advance_cradle, manageCradleSwing_not_due;
      [exact F3|].
    destruct (cradle_fields_inv _ _ F3) as (Ec & _).
    unfold swing_due. rewrite Ec, Hi. reflexivity.
  - intros Ha. unfold advance.
    rewrite manageDiaperAlertMessage_inactive.
    + rewrite diaper_fields_manageBuzzer, diaper_fields_manageCradleSwing.
      exact F4.
    + assert (D : diaper_fields
                    (manageBuzzer t (manageCradleSwing t s1))
                  = diaper_fields s)
        by (rewrite diaper_fields_manageBuzzer,
              diaper_fields_manageCradleSwing; exact F4).
      unfold diaper_fields in D. injection D as -> _. exact Ha.
  - intros Ha. unfold advance.
    assert (B : buzzer_fields (manageCradleSwing t s1) = buzzer_fields s)
      by (rewrite buzzer_fields_manageCradleSwing; exact F5).
    assert (P : sound_fields (manageCradleSwing t s1) = sound_fields s1)
      by apply sound_fields_manageCradleSwing.
    assert (A1 : isBuzzerActive (manageCradleSwing t s1) = false)
      by (unfold buzzer_fields in B; injection B as -> _ _ _; exact Ha).
    rewrite (manageBuzzer_inactive _ _ A1).
    rewrite buzzer_fields_manageDiaperAlertMessage.
    split; [exact B|].
    assert (Q : sound_fields
                  (manageDiaperAlertMessage t (manageCradleSwing t s1))
                = sound_fields s1)
      by (rewrite sound_fields_manageDiaperAlertMessage; exact P).
    unfold sound_fields in Q. injection Q as _ ->. exact F6.
Qed.

Lemma pass_without_valid_sample_arms_nothing_witness :
  fanRelayPin (loop (pass NAN 400 LOW) boot) = fanRelayPin boot.
Proof.
  apply (pass_without_valid_sample_arms_nothing (pass NAN 400 LOW) boot).
  vm_compute. reflexivity.
Defined.

(** *** The display *)

Lemma lcd_updateLCD x s :
  lcd_prints (trace (updateLCD x s))
  = (if negb (CradleState_eqb (cradleState s) IDLE) then "Cradle Swinging "
     else if isDiaperAlertActive s then "Diaper is Wet!  "
     else "System OK       ")%string
    :: (if Level_eqb (fanRelayPin s) LOW then "F:ON " else "F:OFF")%string
    :: "C  "%string :: "Temp: "%string :: lcd_prints (trace s).
Proof.
  open_state s. sketch. repeat (split_if; sketch); reflexivity.
Qed.

Lemma lcd_handleTemperature x s :
  lcd_prints (trace (handleTemperature x s)) = lcd_prints (trace s).
Proof. frame. Qed.

Lemma lcd_handleCry v s :
  lcd_prints (trace (handleCry v s)) = lcd_prints (trace s).
Proof. frame. Qed.

Lemma lcd_handleUrine v s :
  lcd_prints (trace (handleUrine v s)) = lcd_prints (trace s).
Proof. frame. Qed.

Lemma handleCry_idle v s :
  CradleState_eqb (cradleState (handleCry v s)) IDLE
  = CradleState_eqb (cradleState s) IDLE && negb (Level_eqb v LOW).
Proof.
  unfold handleCry.
  destruct (Level_eqb v LOW) eqn:Ev;
    destruct (CradleState_eqb (cradleState s) IDLE) eqn:Ec;
    cbn [andb negb]; try rewrite Ec; try reflexivity.
  cbv zeta. unfold startBuzzer. destruct (isBuzzerActive _);
    open_state s; reflexivity.
Qed.

Lemma handleUrine_active_after v s :
  isDiaperAlertActive (handleUrine v s)
  = isDiaperAlertActive s || (v <? WETNESS_THRESHOLD).
Proof.
  unfold handleUrine.
  destruct (v <? WETNESS_THRESHOLD) eqn:Ev;
    destruct (isDiaperAlertActive s) eqn:Ea;
    cbn [andb negb orb]; try rewrite Ea; try reflexivity.
  cbv zeta. unfold startBuzzer. destruct (isBuzzerActive _);
    open_state s; reflexivity.
Qed.

(** X11. The display follows the rules of the same pass.  On a pass that
    samples a valid temperature the display gets, in this order, the
    temperature label, the unit, the fan status decided by this pass's
    temperature, and one status text: the cradle text if the cradle was
    already swinging or the cry sensor is LOW in this pass, else the diaper
    text if the alert was already active or the wetness reading is below 500
    in this pass, else the OK text.  The status text fills the 16 columns of
    the display. *)
Theorem display_follows_rules_of_same_pass :
  forall (inp : TickInput) (s : State),
    samples_ok inp s = true ->
    let status :=
      if negb (CradleState_eqb (cradleState s) IDLE)
         || Level_eqb (in_sound inp) LOW
      then "Cradle Swinging "%string
      else if isDiaperAlertActive s || (in_soil inp <? WETNESS_THRESHOLD)
      then "Diaper is Wet!  "%string
      else "System OK       "%string in
    lcd_prints
      (trace (sample inp (loop_time inp s) (delay (in_idle inp) s)))
    = status
      :: (if (TEMPERATURE_THRESHOLD <? in_temperature inp)%float
          then "F:ON " else "F:OFF")%string
      :: "C  "%string :: "Temp: "%string :: lcd_prints (trace s)
    /\ String.length status = 16%nat.
Proof.
  intros inp s Hok status.
  destruct (samples_ok_split _ _ Hok) as [Hd Hn].
  rewrite (sample_valid _ _ _ Hd Hn).
  fold (before_cry inp s). unfold rules. fold (before_cry inp s).
  set (s2 := handleCry (in_sound inp) (before_cry inp s)).
  set (s3 := handleUrine (in_soil inp) s2).
  rewrite lcd_updateLCD.
  assert (Ec : CradleState_eqb (cradleState s3) IDLE
               = CradleState_eqb (cradleState s) IDLE
                 && negb (Level_eqb (in_sound inp) LOW)).
  { unfold s3.
    destruct (cradle_fields_inv _ _
                (cradle_fields_handleUrine (in_soil inp) s2))
      as (-> & _).
    unfold s2. rewrite handleCry_idle.
    destruct (cradle_fields_inv _ _ (proj1 (before_cry_fields inp s)))
      as (-> & _).
    reflexivity. }
  assert (Ea : isDiaperAlertActive s3
               = isDiaperAlertActive s || (in_soil inp <? WETNESS_THRESHOLD)).
  { unfold s3. rewrite handleUrine_active_after.
    assert (D : diaper_fields s2 = diaper_fields s).
    { unfold s2, before_cry.
      rewrite diaper_fields_handleCry, diaper_fields_handleTemperature.
      reflexivity. }
    unfold diaper_fields in D. injection D as -> _. reflexivity. }
  assert (Ef : fanRelayPin s3
               = if (TEMPERATURE_THRESHOLD <? in_temperature inp)%float
                 then LOW else HIGH).
  { unfold s3, s2, before_cry.
    destruct (fan_handleUrine (in_soil inp)
                (handleCry (in_sound inp)
                   (handleTemperature (in_temperature inp)
                      (delay (in_read inp)
                         (set_lastSensorReadTime (loop_time inp s)
                            (delay (in_idle inp) s)))))) as [-> _].
    destruct (fan_handleCry (in_sound inp)
                (handleTemperature (in_temperature inp)
                   (delay (in_read inp)
                      (set_lastSensorReadTime (loop_time inp s)
                         (delay (in_idle inp) s))))) as [-> _].
    apply fan_handleTemperature. }
  assert (El : lcd_prints (trace s3) = lcd_prints (trace s)).
  { unfold s3, s2, before_cry.
    rewrite lcd_handleUrine, lcd_handleCry, lcd_handleTemperature.
    reflexivity. }
  rewrite Ec, Ea, Ef, El. unfold status.
  destruct (CradleState_eqb (cradleState s) IDLE),
    (Level_eqb (in_sound inp) LOW),
    (isDiaperAlertActive s), (in_soil inp <? WETNESS_THRESHOLD),
    (TEMPERATURE_THRESHOLD <? in_temperature inp)%float;
    split; reflexivity.
Qed.

Lemma display_follows_rules_of_same_pass_witness :
  lcd_prints (trace (sample crying_and_wet 7000 (delay 500 boot)))
  = ["Cradle Swinging "; "F:OFF"; "C  "; "Temp: "]%string.
Proof.
  apply (display_follows_rules_of_same_pass crying_and_wet boot).
  vm_compute. reflexivity.
Defined.

(** *** Rules firing in a pass *)

Lemma handleCry_not_fired inp s :
  cry_fires inp s = false -> handleCry (in_sound inp) s = s.
Proof. unfold cry_fires, handleCry. intros ->. reflexivity. Qed.

Lemma cry_fires_true inp s :
  cry_fires inp s = true -> in_sound inp = LOW /\ cradleState s = IDLE.
Proof.
  unfold cry_fires. intros H. apply andb_true_iff in H. destruct H as [A B].
  apply CradleState_eqb_eq in B. destruct (in_sound inp); [auto|discriminate].
Qed.

Lemma wet_fires_true inp s :
  wet_fires inp s = true ->
  in_soil inp < WETNESS_THRESHOLD /\ isDiaperAlertActive s = false.
Proof.
  unfold wet_fires. intros H. apply andb_true_iff in H. destruct H as [A B].
  apply Z.ltb_lt in A. apply negb_true_iff in B. auto.
Qed.

Lemma elapsed_same t : elapsed t t = 0.
Proof. unfold elapsed. rewrite Z.sub_diag. reflexivity. Qed.

Lemma diaper_fields_advance_fresh t s :
  diaper_fields s = (true, t) -> diaper_fields (advance t s) = (true, t).
Proof.
  intros D. unfold advance.
  assert (D2 : diaper_fields (manageBuzzer t (manageCradleSwing t s))
               = (true, t)).
  { rewrite diaper_fields_manageBuzzer, diaper_fields_manageCradleSwing.
    exact D. }
  unfold diaper_fields in D2. injection D2 as A B.
  unfold manageDiaperAlertMessage. rewrite A, B, elapsed_same.
  cbn [andb Z.ltb Z.compare]. unfold diaper_fields. rewrite A, B. reflexivity.
Qed.

(** X12. When the clock stands still between the start of a pass and the
    wetness rule (the sensor reads take less than a millisecond and the cry
    rule does not fire), a wetness alert raised in the pass is still active
    when the pass ends, with the instant of the pass as its start time, and
    one wetness message has been sent. *)
Theorem wet_alert_survives_quiet_pass :
  forall (inp : TickInput) (s : State),
    samples_ok inp s = true ->
    wet_fires inp s = true ->
    cry_fires inp s = false ->
    in_read inp = 0 ->
    isDiaperAlertActive (loop inp s) = true
    /\ diaperAlertStartTime (loop inp s) = loop_time inp s
    /\ wet_sends (loop inp s) = S (wet_sends s).
Proof.
  intros inp s Hok Hw Hc Hr.
  rewrite (loop_valid _ _ Hok).
  rewrite handleCry_not_fired by (rewrite cry_fires_before_cry; exact Hc).
  assert (W1 : wet_fires inp (before_cry inp s) = true).
  { pose proof (wet_fires_after_cry inp s) as E.
    rewrite handleCry_not_fired in E
      by (rewrite cry_fires_before_cry; exact Hc).
    rewrite E. exact Hw. }
  destruct (wet_fires_true _ _ W1) as [Hv Ha].
  destruct (handleUrine_fires (in_soil inp) (before_cry inp s) Hv Ha)
    as (F & W).
  assert (M : millis (before_cry inp s) = loop_time inp s).
  { unfold before_cry, millis.
    destruct (cost_handleTemperature (in_temperature inp)
                (delay (in_read inp)
                   (set_lastSensorReadTime (loop_time inp s)
                      (delay (in_idle inp) s)))) as [-> _].
    unfold loop_time, millis, delay.
    cbn [clock set_clock set_lastSensorReadTime].
    rewrite Hr, Z.add_0_r. reflexivity. }
  rewrite M in F.
  assert (D : diaper_fields
                (advance (loop_time inp s)
                   (updateLCD (in_temperature inp)
                      (handleUrine (in_soil inp) (before_cry inp s))))
              = (true, loop_time inp s)).
  { apply diaper_fields_advance_fresh. rewrite diaper_fields_updateLCD.
    exact F. }
  unfold diaper_fields in D. injection D as D1 D2.
  split; [exact D1|]. split; [exact D2|].
  rewrite wet_sends_advance, wet_sends_updateLCD, W.
  unfold before_cry. rewrite wet_sends_handleTemperature. reflexivity.
Qed.

Lemma wet_alert_survives_quiet_pass_witness :
  isDiaperAlertActive (loop (pass 25 400 HIGH) boot) = true
  /\ diaperAlertStartTime (loop (pass 25 400 HIGH) boot)
     = loop_time (pass 25 400 HIGH) boot
  /\ wet_sends (loop (pass 25 400 HIGH) boot) = S (wet_sends boot).
Proof.
  apply (wet_alert_survives_quiet_pass (pass 25 400 HIGH) boot);
    vm_compute; reflexivity.
Defined.

Lemma buzzer_fields_handleUrine_busy v s :
  isBuzzerActive s = true ->
  buzzer_fields (handleUrine v s) = buzzer_fields s.
Proof.
  intros H. open_state s. cbn [isBuzzerActive] in H. subst bact.
  enter. repeat (split_if; cbv beta iota zeta); sketch in *;
    try discriminate; reflexivity.
Qed.

Lemma manageBuzzer_running t s :
  isBuzzerActive s = true -> 0 < beepCount s ->
  buzzerMode (manageBuzzer t s) = buzzerMode s
  /\ isBuzzerActive (manageBuzzer t s) = true.
Proof.
  intros Ha Hc. open_state s. cbn [isBuzzerActive beepCount] in Ha, Hc.
  subst bact. apply Z.ltb_lt in Hc.
  enter. cbn [isBuzzerActive beepCount negb]. rewrite Hc.
  repeat (split_if; cbv beta iota zeta); sketch; split; reflexivity.
Qed.

Lemma start_time_advance t s :
  diaperAlertStartTime (advance t s) = diaperAlertStartTime s.
Proof.
  unfold advance.
  assert (A : forall u, diaperAlertStartTime (manageDiaperAlertMessage t u)
                        = diaperAlertStartTime u) by (clear; frame).
  assert (B : diaper_fields (manageBuzzer t (manageCradleSwing t s))
              = diaper_fields s)
    by (rewrite diaper_fields_manageBuzzer;
        apply diaper_fields_manageCradleSwing).
  rewrite A. unfold diaper_fields in B. injection B as _ ->. reflexivity.
Qed.

(** X13. Both rules in one pass.  When the cry rule and the wetness rule fire
    in the same pass with the buzzer idle, the cry rule runs first: the
    buzzer runs the cry pattern and the wetness pattern is dropped, each
    message is sent once, and the wetness alert records as its start the
    instant after the crying message has gone out, 2100 ms and the read time
    after the instant of the pass. *)
Theorem both_rules_in_one_pass :
  forall (inp : TickInput) (s : State),
    samples_ok inp s = true ->
    cry_fires inp s = true ->
    wet_fires inp s = true ->
    isBuzzerActive s = false ->
    buzzerMode (loop inp s) = CRY_ALERT
    /\ isBuzzerActive (loop inp s) = true
    /\ cry_sends (loop inp s) = S (cry_sends s)
    /\ wet_sends (loop inp s) = S (wet_sends s)
    /\ diaperAlertStartTime (loop inp s)
       = (clock s + in_idle inp + in_read inp + 2100) mod ULONG_MOD.
Proof.
  intros inp s Hok Hc Hw Hb.
  rewrite (loop_valid _ _ Hok).
  set (s1 := before_cry inp s).
  destruct (before_cry_fields inp s) as (F1 & F2 & F3). fold s1 in F1, F2, F3.
  assert (Hc1 : cry_fires inp s1 = true)
    by (unfold s1; rewrite cry_fires_before_cry; exact Hc).
  destruct (cry_fires_true _ _ Hc1) as [Hlow Hidle].
  assert (Hb1 : isBuzzerActive s1 = false)
    by (unfold buzzer_fields in F2; injection F2 as -> _ _ _; exact Hb).
  rewrite Hlow.
  destruct (handleCry_fires s1 Hidle) as (_ & _ & C3 & C4 & _).
  specialize (C4 Hb1).
  set (s2 := handleCry LOW s1) in *.
  assert (Hw2 : wet_fires inp s2 = true).
  { unfold s2, s1. rewrite <- Hlow, wet_fires_after_cry. exact Hw. }
  destruct (wet_fires_true _ _ Hw2) as [Hv Ha].
  destruct (handleUrine_fires (in_soil inp) s2 Hv Ha) as (U1 & U2).
  assert (Hb2 : isBuzzerActive s2 = true)
    by (unfold buzzer_fields in C4; injection C4; auto).
  pose proof (buzzer_fields_handleUrine_busy (in_soil inp) s2 Hb2) as U3.
  set (s3 := handleUrine (in_soil inp) s2) in *.
  set (s4 := updateLCD (in_temperature inp) s3).
  assert (B4 : buzzer_fields
                 (manageCradleSwing (loop_time inp s) s4)
               = (true, CRY_ALERT, 6, millis s1)).
  { unfold s4.
    rewrite buzzer_fields_manageCradleSwing, buzzer_fields_updateLCD, U3.
    exact C4. }
  unfold buzzer_fields in B4. injection B4 as B41 B42 B43 _.
  destruct (manageBuzzer_running (loop_time inp s)
              (manageCradleSwing (loop_time inp s) s4))
    as [M1 M2]; [exact B41 | rewrite B43; lia |].
  assert (K : clock s2 = clock s + in_idle inp + in_read inp + 2100).
  { unfold s2. rewrite <- Hlow.
    destruct (cost_handleCry inp s1) as [-> _]. rewrite Hc1.
    unfold s1, before_cry.
    destruct (cost_handleTemperature (in_temperature inp)
                (delay (in_read inp)
                   (set_lastSensorReadTime (loop_time inp s)
                      (delay (in_idle inp) s)))) as [-> _].
    reflexivity. }
  repeat split.
  - unfold advance.
    assert (E : buzzer_fields
                  (manageDiaperAlertMessage (loop_time inp s)
                     (manageBuzzer (loop_time inp s)
                        (manageCradleSwing (loop_time inp s) s4)))
                = buzzer_fields
                    (manageBuzzer (loop_time inp s)
                       (manageCradleSwing (loop_time inp s) s4)))
      by apply buzzer_fields_manageDiaperAlertMessage.
    unfold buzzer_fields in E. injection E as _ -> _ _.
    rewrite M1. exact B42.
  - unfold advance.
    assert (E : buzzer_fields
                  (manageDiaperAlertMessage (loop_time inp s)
                     (manageBuzzer (loop_time inp s)
                        (manageCradleSwing (loop_time inp s) s4)))
                = buzzer_fields
                    (manageBuzzer (loop_time inp s)
                       (manageCradleSwing (loop_time inp s) s4)))
      by apply buzzer_fields_manageDiaperAlertMessage.
    unfold buzzer_fields in E. injection E as -> _ _ _. exact M2.
  - unfold s4, s3. rewrite cry_sends_advance, cry_sends_updateLCD,
      cry_sends_handleUrine, C3, F3. reflexivity.
  - unfold s4. rewrite wet_sends_advance, wet_sends_updateLCD, U2.
    unfold s2, s1, before_cry.
    rewrite wet_sends_handleCry, wet_sends_handleTemperature. reflexivity.
  - rewrite start_time_advance. unfold s4.
    assert (D : diaper_fields (updateLCD (in_temperature inp) s3)
                = (true, millis s2))
      by (rewrite diaper_fields_updateLCD; exact U1).
    unfold diaper_fields in D. injection D as _ ->.
    unfold millis. rewrite K. reflexivity.
Qed.

Lemma both_rules_in_one_pass_witness :
  buzzerMode (loop crying_and_wet boot) = CRY_ALERT
  /\ isBuzzerActive (loop crying_and_wet boot) = true
  /\ cry_sends (loop crying_and_wet boot) = S (cry_sends boot)
  /\ wet_sends (loop crying_and_wet boot) = S (wet_sends boot)
  /\ diaperAlertStartTime (loop crying_and_wet boot)
     = (clock boot + in_idle crying_and_wet + in_read crying_and_wet + 2100)
       mod ULONG_MOD.
Proof.
  apply (both_rules_in_one_pass crying_and_wet boot); vm_compute; reflexivity.
Defined.

(** *** Start-up *)

Lemma gsm_await_ok_spec r :
  forall s,
    fst (gsm_await_ok r s) = reply_has_ok r
    /\ globals (snd (gsm_await_ok r s)) = globals s
    /\ trace (snd (gsm_await_ok r s)) = trace s
    /\ (Forall (fun c : string * Z => 0 <= snd c) r ->
        clock s <= clock (snd (gsm_await_ok r s))).
Proof.
  induction r as [|[str d] r IH]; intros s; simpl.
  - repeat split. intros _. lia.
  - destruct (contains_OK str); simpl.
    + repeat split. intros H. inversion H; subst. simpl in *. lia.
    + destruct (IH (delay d s)) as (A & B & C & D).
      rewrite A, B, C. repeat split.
      intros H. inversion H; subst. specialize (D H3). simpl in *. lia.
Qed.

Lemma gsm_probes_spec n :
  forall replies s,
    globals (gsm_probes n replies s) = globals s
    /\ gsm_lines "AT" (trace (gsm_probes n replies s))
       = (gsm_lines "AT" (trace s) + probes_sent n replies)%nat
    /\ gsm_lines "AT+CMGF=1" (trace (gsm_probes n replies s))
       = (gsm_lines "AT+CMGF=1" (trace s)
          + (if modem_answers n replies then 1 else 0))%nat
    /\ submitted (trace (gsm_probes n replies s)) = submitted (trace s)
    /\ (reads_take_time replies ->
        clock s + 1000 * Z.of_nat (probes_sent n replies)
        + (if modem_answers n replies then 500 else 0)
        <= clock (gsm_probes n replies s)).
Proof.
  induction n as [|n IH]; intros replies s.
  - simpl. repeat split; try lia.
  - cbn [gsm_probes probes_sent modem_answers].
    set (s1 := delay 1000 (emit (GsmPrintln "AT") s)).
    destruct (gsm_await_ok_spec (hd [] replies) s1) as (A & B & C & D).
    destruct (gsm_await_ok (hd [] replies) s1) as [ok s2].
    cbn [fst snd] in A, B, C, D. rewrite <- A.
    assert (Hhd : reads_take_time replies ->
                  Forall (fun c : string * Z => 0 <= snd c) (hd [] replies)).
    { intros H. destruct replies as [|r rs]; simpl; [constructor|].
      inversion H; auto. }
    assert (Htl : reads_take_time replies -> reads_take_time (tl replies)).
    { intros H. destruct replies as [|r rs]; simpl; [exact H|].
      inversion H; auto. }
    assert (G : globals s2 = globals s) by (rewrite B; reflexivity).
    assert (T : trace s2 = (clock s, GsmPrintln "AT") :: trace s)
      by (rewrite C; reflexivity).
    assert (K : reads_take_time replies -> clock s + 1000 <= clock s2).
    { intros H. specialize (D (Hhd H)).
      change (clock s1) with (clock s + 1000) in D. exact D. }
    clearbody s1. clear A B C D.
    destruct ok; cbn [orb]; cbv zeta.
    + split; [exact G|].
      change (trace
                (delay 500
                   (emit (GsmPrintln "AT+CMGF=1")
                      (emit
                         (SerialPrintln
                            "GSM Module Initialized Successfully!") s2))))
        with ((clock s2, GsmPrintln "AT+CMGF=1")
              :: (clock s2,
                  SerialPrintln "GSM Module Initialized Successfully!")
              :: trace s2).
      rewrite T. cbn [gsm_lines submitted].
      change (String.eqb "AT+CMGF=1" "AT") with false.
      change (String.eqb "AT" "AT") with true.
      change (String.eqb "AT+CMGF=1" "AT+CMGF=1") with true.
      change (String.eqb "AT" "AT+CMGF=1") with false.
      cbv iota.
      repeat split; try lia.
      intros H. specialize (K H).
      change (clock
                (delay 500
                   (emit (GsmPrintln "AT+CMGF=1")
                      (emit
                         (SerialPrintln
                            "GSM Module Initialized Successfully!") s2))))
        with (clock s2 + 500).
      lia.
    + destruct (IH (tl replies)
                  (emit (SerialPrintln "Retrying GSM Connection...") s2))
        as (I1 & I2 & I3 & I4 & I5).
      rewrite I1, I2, I3, I4.
      change (trace (emit (SerialPrintln "Retrying GSM Connection...") s2))
        with ((clock s2, SerialPrintln "Retrying GSM Connection...")
              :: trace s2).
      rewrite T. cbn [gsm_lines submitted].
      change (String.eqb "AT" "AT") with true.
      change (String.eqb "AT" "AT+CMGF=1") with false.
      cbv iota.
      split; [exact G|].
      repeat split; try lia.
      intros H. specialize (K H). specialize (I5 (Htl H)).
      change (clock (emit (SerialPrintln "Retrying GSM Connection...") s2))
        with (clock s2) in I5.
      lia.
Qed.

Lemma probes_sent_bounds n :
  forall replies,
    (probes_sent n replies <= n)%nat
    /\ (1 <= n -> 1 <= probes_sent n replies)%nat
    /\ (modem_answers n replies = false -> probes_sent n replies = n).
Proof.
  induction n as [|n IH]; intros replies; simpl.
  - repeat split; lia.
  - destruct (reply_has_ok (hd [] replies)); simpl.
    + repeat split; try lia; discriminate.
    + destruct (IH (tl replies)) as (A & B & C).
      repeat split; try lia. intros H. rewrite C by exact H. reflexivity.
Qed.

Lemma gsm_probes_silent n :
  forall replies s,
    Forall (fun r : ModemReply => r = []) replies ->
    clock (gsm_probes n replies s) = clock s + 1000 * Z.of_nat n.
Proof.
  induction n as [|n IH]; intros replies s H.
  - simpl. lia.
  - assert (E : hd [] replies = []).
    { destruct replies as [|r rs]; [reflexivity|]. inversion H; auto. }
    assert (Ht : Forall (fun r : ModemReply => r = []) (tl replies)).
    { destruct replies as [|r rs]; [exact H|]. inversion H; auto. }
    cbn [gsm_probes]. rewrite E. cbn [gsm_await_ok]. cbv zeta.
    rewrite IH by exact Ht.
    change (clock
              (emit (SerialPrintln "Retrying GSM Connection...")
                 (delay 1000 (emit (GsmPrintln "AT") s))))
      with (clock s + 1000).
    lia.
Qed.

(** X14. Modem start-up.  [initializeGSM] probes the modem at least once and
    at most five times, stopping at the first probe whose reply holds OK
    (all five when none does).  It selects text mode exactly when a reply
    held OK, and never otherwise; it submits no message and changes nothing
    in the state but the clock and the trace. *)
Theorem modem_text_mode_needs_an_answer :
  forall (replies : list ModemReply) (s : State),
    let s' := initializeGSM replies s in
    globals s' = globals s
    /\ gsm_lines "AT" (trace s')
       = (gsm_lines "AT" (trace s) + probes_sent 5 replies)%nat
    /\ (1 <= probes_sent 5 replies <= 5)%nat
    /\ (if modem_answers 5 replies then True
        else probes_sent 5 replies = 5%nat)
    /\ gsm_lines "AT+CMGF=1" (trace s')
       = (gsm_lines "AT+CMGF=1" (trace s)
          + (if modem_answers 5 replies then 1 else 0))%nat
    /\ submitted (trace s') = submitted (trace s).
Proof.
  intros replies s s'. subst s'. unfold initializeGSM. cbv zeta.
  destruct (gsm_probes_spec 5 replies
              (delay 3000
                 (emit (SerialPrintln "Initializing GSM Module...") s)))
    as (A & B & C & D & _).
  destruct (probes_sent_bounds 5 replies) as (P1 & P2 & P3).
  rewrite A, B, C, D.
  repeat split; try lia.
  destruct (modem_answers 5 replies); auto.
Qed.

(** X15. How long the modem start-up takes.  When no read takes a negative
    time, [initializeGSM] blocks for at least 4500 ms if a reply held OK and
    for at least 8000 ms if none did; with a modem that sends nothing at all
    it blocks for exactly 8000 ms and then returns. *)
Theorem modem_startup_time :
  forall (replies : list ModemReply) (s : State),
    reads_take_time replies ->
    clock s + (if modem_answers 5 replies then 4500 else 8000)
    <= clock (initializeGSM replies s)
    /\ (Forall (fun r : ModemReply => r = []) replies ->
        clock (initializeGSM replies s) = clock s + 8000).
Proof.
  intros replies s H. unfold initializeGSM. cbv zeta. split.
  - destruct (gsm_probes_spec 5 replies
                (delay 3000
                   (emit (SerialPrintln "Initializing GSM Module...") s)))
      as (_ & _ & _ & _ & E).
    specialize (E H).
    destruct (probes_sent_bounds 5 replies) as (P1 & P2 & P3).
    change (clock
              (delay 3000
                 (emit (SerialPrintln "Initializing GSM Module...") s)))
      with (clock s + 3000) in E.
    destruct (modem_answers 5 replies); [lia|].
    rewrite P3 in E by reflexivity. lia.
  - intros Hs. rewrite gsm_probes_silent by exact Hs.
    change (clock
              (delay 3000
                 (emit (SerialPrintln "Initializing GSM Module...") s)))
      with (clock s + 3000).
    lia.
Qed.

Lemma modem_startup_time_witness :
  clock boot + (if modem_answers 5 answers_second then 4500 else 8000)
  <= clock (initializeGSM answers_second boot).
Proof.
  apply (modem_startup_time answers_second boot).
  repeat constructor; simpl; lia.
Defined.

Lemma modem_startup_bounds replies s :
  reads_take_time replies ->
  globals (initializeGSM replies s) = globals s
  /\ submitted (trace (initializeGSM replies s)) = submitted (trace s)
  /\ clock s + 4500 <= clock (initializeGSM replies s).
Proof.
  intros H. unfold initializeGSM. cbv zeta.
  destruct (gsm_probes_spec 5 replies
              (delay 3000
                 (emit (SerialPrintln "Initializing GSM Module...") s)))
    as (A & _ & _ & D & E).
  specialize (E H).
  destruct (probes_sent_bounds 5 replies) as (P1 & P2 & P3).
  rewrite A, D.
  change (clock
            (delay 3000
               (emit (SerialPrintln "Initializing GSM Module...") s)))
    with (clock s + 3000) in E.
  repeat split.
  destruct (modem_answers 5 replies); [lia|].
  rewrite P3 in E by reflexivity. lia.
Qed.

(** X16. What [setup()] leaves.  Whatever the modem replies and whatever the
    servo and the output pins were at power-up, the state [setup()] returns
    is, apart from its trace, the state [after_setup] at its clock value: fan
    relay HIGH (fan off), buzzer LOW, servo at 60 degrees, cradle IDLE,
    nothing armed.  It has sent no message, and when no read takes a negative
    time it returns no earlier than 6500 ms after power-up. *)
Theorem setup_leaves_after_setup :
  forall (replies : list ModemReply) (angle0 : Z) (fan0 bz0 : Level),
    reads_take_time replies ->
    let s' := setup replies (power_on angle0 fan0 bz0) in
    set_trace [] s' = after_setup (clock s')
    /\ alert_sends s' = O
    /\ 6500 <= clock s'.
Proof.
  intros replies angle0 fan0 bz0 H s'. subst s'. unfold setup. cbv zeta.
  set (s0 := delay 2000
               (servo_write CRADLE_POS_REST
                  (digitalWrite BUZZER_PIN LOW
                     (digitalWrite FAN_RELAY_PIN HIGH
                        (emit (LcdPrint " Baby Monitor ")
                           (emit (LcdSetCursor 0 0)
                              (power_on angle0 fan0 bz0))))))).
  destruct (modem_startup_bounds replies s0 H) as (G & S & K).
  set (s1 := initializeGSM replies s0) in *.
  assert (G' : globals (emit (SerialPrintln "System Ready.") s1)
               = after_setup 0)
    by (change (globals s1 = after_setup 0); rewrite G; reflexivity).
  split; [|split].
  - clear G S K. clearbody s1. open_state s1.
    unfold globals, after_setup in *. sketch in *.
    injection G'. intros. subst. reflexivity.
  - unfold alert_sends.
    change (trace (emit (SerialPrintln "System Ready.") s1))
      with ((clock s1, SerialPrintln "System Ready.") :: trace s1).
    cbn [submitted]. rewrite S. reflexivity.
  - change (clock (emit (SerialPrintln "System Ready.") s1))
      with (clock s1).
    change (clock s0) with 2000 in K. exact K.
Qed.

Lemma setup_leaves_after_setup_witness :
  set_trace [] (setup answers_second (power_on 0 LOW LOW))
  = after_setup (clock (setup answers_second (power_on 0 LOW LOW)))
  /\ alert_sends (setup answers_second (power_on 0 LOW LOW)) = O
  /\ 6500 <= clock (setup answers_second (power_on 0 LOW LOW)).
Proof.
  apply (setup_leaves_after_setup answers_second 0 LOW LOW).
  repeat constructor; simpl; lia.
Defined.

(** *** The sampling timer *)

Lemma timer_loop_not_due inp s :
  sample_due (loop_time inp s) s = false ->
  lastSensorReadTime (loop inp s) = lastSensorReadTime s.
Proof.
  intros Hd. unfold loop. fold (loop_time inp s).
  rewrite timer_advance, sample_not_due by exact Hd. reflexivity.
Qed.

(** X17. Sampling rate.  A pass samples the sensors exactly when at least
    500 ms (in 32-bit arithmetic) have passed since the last sampling pass:
    after a pass the sampling timer holds the instant of the pass if the
    sampling was due, whatever the readings, and is unchanged otherwise; so
    the next pass samples iff it comes at least 500 ms after that instant. *)
Theorem sampling_timer_after_a_pass :
  forall (inp : TickInput) (s : State) (later : Z),
    lastSensorReadTime (loop inp s)
    = (if sample_due (loop_time inp s) s
       then loop_time inp s else lastSensorReadTime s)
    /\ sample_due later (loop inp s)
       = (500 <=? elapsed later
                    (if sample_due (loop_time inp s) s
                     then loop_time inp s else lastSensorReadTime s)).
Proof.
  intros inp s later.
  assert (E : lastSensorReadTime (loop inp s)
              = if sample_due (loop_time inp s) s
                then loop_time inp s else lastSensorReadTime s).
  { destruct (sample_due (loop_time inp s) s) eqn:Hd.
    - apply timer_loop_due, Hd.
    - apply timer_loop_not_due, Hd. }
  split; [exact E|]. unfold sample_due at 1. rewrite E. reflexivity.
Qed.

(** *** An alert that is already active *)

Lemma diaper_rules_active inp s :
  isDiaperAlertActive s = true ->
  diaper_fields (rules inp s) = diaper_fields s
  /\ wet_sends (rules inp s) = wet_sends s.
Proof.
  intros Ha. unfold rules.
  set (s2 := handleCry (in_sound inp)
               (handleTemperature (in_temperature inp) s)).
  assert (D2 : diaper_fields s2 = diaper_fields s)
    by (unfold s2; rewrite diaper_fields_handleCry;
        apply diaper_fields_handleTemperature).
  assert (A2 : isDiaperAlertActive s2 = true)
    by (unfold diaper_fields in D2; injection D2 as -> _; exact Ha).
  rewrite (handleUrine_active _ _ A2).
  rewrite diaper_fields_updateLCD, wet_sends_updateLCD.
  split; [exact D2|].
  unfold s2. rewrite wet_sends_handleCry. apply wet_sends_handleTemperature.
Qed.

(** X18. While the diaper alert is active, a pass sends no wetness message
    and keeps the recorded start time, whatever the wetness reading; the
    alert is cleared by exactly those passes whose instant lies more than
    5000 ms (in 32-bit arithmetic) after the recorded start. *)
Theorem active_alert_blocks_the_wetness_rule :
  forall (inp : TickInput) (s : State),
    isDiaperAlertActive s = true ->
    wet_sends (loop inp s) = wet_sends s
    /\ diaperAlertStartTime (loop inp s) = diaperAlertStartTime s
    /\ isDiaperAlertActive (loop inp s)
       = negb (5000 <? elapsed (loop_time inp s) (diaperAlertStartTime s)).
Proof.
  intros inp s Ha. unfold loop. fold (loop_time inp s).
  set (t := loop_time inp s).
  set (s1 := sample inp t (delay (in_idle inp) s)).
  assert (F : diaper_fields s1 = diaper_fields s
              /\ wet_sends s1 = wet_sends s).
  { unfold s1, sample. destruct (sample_due _ _); [|split; reflexivity].
    cbv zeta. destruct (negb (is_nan (in_temperature inp)));
      [|split; reflexivity].
    destruct (diaper_rules_active inp
                (delay (in_read inp)
                   (set_lastSensorReadTime t (delay (in_idle inp) s))) Ha)
      as [-> ->].
    split; reflexivity. }
  destruct F as [F1 F2].
  rewrite wet_sends_advance, start_time_advance, F2.
  assert (D : diaper_fields (manageBuzzer t (manageCradleSwing t s1))
              = diaper_fields s)
    by (rewrite diaper_fields_manageBuzzer, diaper_fields_manageCradleSwing;
        exact F1).
  unfold diaper_fields in F1, D. injection F1 as _ F12.
  injection D as D1 D2.
  repeat split; auto. unfold advance.
  rewrite manageDiaperAlertMessage_active by (rewrite D1; exact Ha).
  rewrite D2. reflexivity.
Qed.

Lemma active_alert_blocks_the_wetness_rule_witness :
  wet_sends (loop wet_at_once (loop (pass 25 400 HIGH) boot))
  = wet_sends (loop (pass 25 400 HIGH) boot).
Proof.
  apply (active_alert_blocks_the_wetness_rule wet_at_once
           (loop (pass 25 400 HIGH) boot)).
  vm_compute. reflexivity.
Defined.

(** *** A pattern that is already running *)

Lemma buzzer_fields_handleCry_busy v s :
  isBuzzerActive s = true ->
  buzzer_fields (handleCry v s) = buzzer_fields s.
Proof.
  intros H. open_state s. cbn [isBuzzerActive] in H. subst bact.
  enter. repeat (split_if; cbv beta iota zeta); sketch in *;
    try discriminate; reflexivity.
Qed.

Lemma buzzer_fields_rules_busy inp s :
  isBuzzerActive s = true ->
  buzzer_fields (rules inp s) = buzzer_fields s.
Proof.
  intros Ha. unfold rules.
  set (s1 := handleTemperature (in_temperature inp) s).
  assert (B1 : buzzer_fields s1 = buzzer_fields s)
    by apply buzzer_fields_handleTemperature.
  assert (A1 : isBuzzerActive s1 = true)
    by (unfold buzzer_fields in B1; injection B1 as -> _ _ _; exact Ha).
  pose proof (buzzer_fields_handleCry_busy (in_sound inp) s1 A1) as B2.
  assert (A2 : isBuzzerActive (handleCry (in_sound inp) s1) = true)
    by (unfold buzzer_fields in B2; injection B2 as -> _ _ _; exact A1).
  rewrite buzzer_fields_updateLCD, buzzer_fields_handleUrine_busy by exact A2.
  rewrite B2. exact B1.
Qed.

Lemma manageBuzzer_countdown t s :
  isBuzzerActive s = true -> 0 < beepCount s <= INT_MAX ->
  isBuzzerActive (manageBuzzer t s) = true
  /\ buzzerMode (manageBuzzer t s) = buzzerMode s
  /\ (beepCount (manageBuzzer t s) = beepCount s
      \/ beepCount (manageBuzzer t s) = beepCount s - 2).
Proof.
  intros Ha Hc. open_state s. cbn [isBuzzerActive beepCount] in Ha, Hc.
  subst bact.
  assert (Hp : (0 <? bcnt) = true) by (apply Z.ltb_lt; lia).
  enter. cbn [isBuzzerActive beepCount negb]. rewrite Hp.
  repeat (split_if; cbv beta iota zeta); sketch;
    rewrite ?wrap_int_small by (unfold INT_MAX in *; lia); auto.
Qed.

(** X19. First pattern wins, pass by pass.  While a pattern is running with
    beeps left, a pass never re-arms the buzzer, whichever rules fire: the
    buzzer stays active in the same mode, and the beep count either stays or
    drops by 2. *)
Theorem running_pattern_is_not_rearmed :
  forall (inp : TickInput) (s : State),
    isBuzzerActive s = true ->
    0 < beepCount s <= INT_MAX ->
    isBuzzerActive (loop inp s) = true
    /\ buzzerMode (loop inp s) = buzzerMode s
    /\ (beepCount (loop inp s) = beepCount s
        \/ beepCount (loop inp s) = beepCount s - 2).
Proof.
  intros inp s Ha Hc. unfold loop. fold (loop_time inp s).
  set (t := loop_time inp s).
  set (s1 := sample inp t (delay (in_idle inp) s)).
  assert (B1 : buzzer_fields s1 = buzzer_fields s).
  { unfold s1, sample. destruct (sample_due _ _); [|reflexivity].
    cbv zeta. destruct (negb (is_nan (in_temperature inp))); [|reflexivity].
    rewrite buzzer_fields_rules_busy by exact Ha. reflexivity. }
  assert (B2 : buzzer_fields (manageCradleSwing t s1) = buzzer_fields s)
    by (rewrite buzzer_fields_manageCradleSwing; exact B1).
  unfold buzzer_fields in B2. injection B2 as E1 E2 E3 _.
  destruct (manageBuzzer_countdown t (manageCradleSwing t s1))
    as (M1 & M2 & M3); [rewrite E1; exact Ha | rewrite E3; exact Hc |].
  unfold advance.
  pose proof (buzzer_fields_manageDiaperAlertMessage t
                (manageBuzzer t (manageCradleSwing t s1))) as D.
  unfold buzzer_fields in D. injection D as -> -> -> _.
  rewrite M1, M2, <- E2, <- E3. auto.
Qed.

Lemma running_pattern_is_not_rearmed_witness :
  isBuzzerActive (loop crying_and_wet beeping) = true
  /\ buzzerMode (loop crying_and_wet beeping) = buzzerMode beeping
  /\ (beepCount (loop crying_and_wet beeping) = beepCount beeping
      \/ beepCount (loop crying_and_wet beeping) = beepCount beeping - 2).
Proof.
  apply (running_pattern_is_not_rearmed crying_and_wet beeping);
    vm_compute; try reflexivity; split; congruence.
Defined.

(** *** Messages and alerts *)

Lemma accounted_ext s s' :
  trace s' = trace s -> accounted s -> accounted s'.
Proof.
  unfold accounted, alert_sends, cry_sends, wet_sends. intros ->. auto.
Qed.









